(** * LimePPSDO firmware: the VCTCXO tamer calibration engine

    A shallow embedding of [src/firmware/vctcxo_tamer.c] (peripheral driver
    and interrupt handler) and of [src/firmware/main.c] (trim-DAC
    correction, calibration state machine and control loop), followed by
    the properties of the calibration engine.

    Conventions of the embedding:
    - C integers are [Z] with the conversion to their width written out
      ([to_uint8], [to_uint16], [to_int32]); signed 32-bit arithmetic wraps
      around (two's complement), which is what the RV32 target does;
    - [float] is IEEE-754 binary32, taken from the standard library's
      [SpecFloat] at precision 24 and maximal exponent 128;
    - the memory-mapped register bank is write-only from the point of view
      of the properties: every [vctcxo_tamer_write] is appended to a log,
      and the bytes read by the interrupt handler are an input;
    - the globals of the two C files are fields of explicit state records. *)

From Stdlib Require Import ZArith List Bool Lia.
From Stdlib Require Import SpecFloat.
Import ListNotations.
Local Open Scope Z_scope.

(* ================================================================== *)
(** ** Fixed-width integers *)

Module CInt.

Definition to_uint8 (z : Z) : Z := z mod 2 ^ 8.
Definition to_uint16 (z : Z) : Z := z mod 2 ^ 16.
Definition to_int32 (z : Z) : Z := (z + 2 ^ 31) mod 2 ^ 32 - 2 ^ 31.

Definition is_uint16 (z : Z) : Prop := 0 <= z <= 65535.
Definition is_int32 (z : Z) : Prop := - 2 ^ 31 <= z <= 2 ^ 31 - 1.

(** [x & ~mask] and [x | mask] stored back into a [uint8_t]. *)
Definition clear_bits8 (x mask : Z) : Z := to_uint8 (Z.land x (Z.lnot mask)).
Definition set_bits8 (x mask : Z) : Z := to_uint8 (Z.lor x mask).

(** A C condition [(x & mask) ? true : false]. *)
Definition mask_test (x mask : Z) : bool := negb (Z.land x mask =? 0).

End CInt.
Import CInt.

(* ================================================================== *)
(** ** binary32 arithmetic *)

Module F32.

Definition float : Type := spec_float.

Definition prec : Z := 24.
Definition emax : Z := 128.

(** [(float)n] for an integer [n]: round to nearest, ties to even. *)
Definition of_int (n : Z) : float := binary_normalize prec emax n 0 false.

Definition mul (a b : float) : float := SFmul prec emax a b.
Definition div (a b : float) : float := SFdiv prec emax a b.

(** The integer nearest to a finite float, halfway cases away from zero;
    [None] for infinities and NaN. *)
Definition nearest_away (f : float) : option Z :=
  match f with
  | S754_zero _ => Some 0
  | S754_finite s m e =>
      let mag :=
        if 0 <=? e then Zpos m * 2 ^ e
        else (2 * Zpos m + 2 ^ (- e)) / (2 * 2 ^ (- e)) in
      Some (if s then - mag else mag)
  | S754_infinity _ | S754_nan => None
  end.

(** [lroundf] with a 32-bit [long].  When the rounded value does not fit
    (or the argument is not finite) the C library returns an unspecified
    [long]: [unspec] stands for that choice. *)
Definition lroundf (unspec : float -> Z) (f : float) : Z :=
  match nearest_away f with
  | Some r =>
      if (- 2 ^ 31 <=? r) && (r <=? 2 ^ 31 - 1) then r
      else to_int32 (unspec f)
  | None => to_int32 (unspec f)
  end.

End F32.

(* ================================================================== *)
(** ** Constants of [vctcxo_tamer.h] and of the generated SoC headers *)

(** Modelled from the spec: [vctcxo_tamer.h] is not part of the sources.
    Control register: bit 0 = counter reset, bit 1 = interrupt enable,
    bit 2 = interrupt clear, bits 6-7 = tune mode. *)
Definition VT_CTRL_RESET : Z := 0x01.
Definition VT_CTRL_IRQ_EN : Z := 0x02.
Definition VT_CTRL_IRQ_CLR : Z := 0x04.
Definition VT_CTRL_TUNE_MODE : Z := 0xC0.

(** Modelled from the spec: the values of [vctcxo_tamer_mode]
    (0 = disabled, 1 = 1-pulse-per-second mode, 2 = 10 MHz mode). *)
Definition VCTCXO_TAMER_DISABLED : Z := 0x00.
Definition VCTCXO_TAMER_1_PPS : Z := 0x01.
Definition VCTCXO_TAMER_10_MHZ : Z := 0x02.

Definition VCTCXO_DEFAULT_DAC_VALUE : Z := 0x77FA.

(** What the headers outside the sources fix and the spec leaves open:
    the register addresses, the status masks, the DAC range of the SoC
    build, and the C library's answer when [lroundf] is out of range. *)
Record platform : Type := Platform {
  VT_CTRL_ADDR : Z;
  VT_STAT_ADDR : Z;
  VT_ERR_1S_ADDR : Z;
  VT_ERR_10S_ADDR : Z;
  VT_ERR_100S_ADDR : Z;
  VT_DAC_TUNNED_VAL_ADDR0 : Z;
  VT_DAC_TUNNED_VAL_ADDR1 : Z;
  VT_STATE_ADDR : Z;
  VT_STAT_ERR_1S : Z;
  VT_STAT_ERR_10S : Z;
  VT_STAT_ERR_100S : Z;
  CONFIG_DAC_MAX : Z;
  lroundf_unspecified : F32.float -> Z
}.

(* ================================================================== *)
(** ** State of the driver ([vctcxo_tamer.c]) *)

(** One [vctcxo_tamer_write(addr, data)]. *)
Definition reg_write : Type := (Z * Z)%type.

(** The two globals of the driver and the log of register writes, oldest
    first. *)
Record driver : Type := Driver {
  vctcxo_tamer_ctrl_reg : Z;
  vctcxo_trim_dac_value : Z;
  hw_writes : list reg_write
}.

(** [struct vctcxo_tamer_pkt_buf]: the sample mailbox. *)
Record vctcxo_tamer_pkt_buf : Type := Pkt {
  ready : bool;
  pps_1s_error : Z;
  pps_10s_error : Z;
  pps_100s_error : Z;
  pps_1s_error_flag : bool;
  pps_10s_error_flag : bool;
  pps_100s_error_flag : bool
}.

(** Field assignments [pkt->field = v]. *)
Definition set_ready (b : bool) (p : vctcxo_tamer_pkt_buf) : vctcxo_tamer_pkt_buf :=
  Pkt b (pps_1s_error p) (pps_10s_error p) (pps_100s_error p)
      (pps_1s_error_flag p) (pps_10s_error_flag p) (pps_100s_error_flag p).

Definition set_pps_1s_error (v : Z) (p : vctcxo_tamer_pkt_buf) : vctcxo_tamer_pkt_buf :=
  Pkt (ready p) v (pps_10s_error p) (pps_100s_error p)
      (pps_1s_error_flag p) (pps_10s_error_flag p) (pps_100s_error_flag p).

Definition set_pps_10s_error (v : Z) (p : vctcxo_tamer_pkt_buf) : vctcxo_tamer_pkt_buf :=
  Pkt (ready p) (pps_1s_error p) v (pps_100s_error p)
      (pps_1s_error_flag p) (pps_10s_error_flag p) (pps_100s_error_flag p).

Definition set_pps_100s_error (v : Z) (p : vctcxo_tamer_pkt_buf) : vctcxo_tamer_pkt_buf :=
  Pkt (ready p) (pps_1s_error p) (pps_10s_error p) v
      (pps_1s_error_flag p) (pps_10s_error_flag p) (pps_100s_error_flag p).

Definition set_pps_1s_error_flag (b : bool) (p : vctcxo_tamer_pkt_buf) : vctcxo_tamer_pkt_buf :=
  Pkt (ready p) (pps_1s_error p) (pps_10s_error p) (pps_100s_error p)
      b (pps_10s_error_flag p) (pps_100s_error_flag p).

Definition set_pps_10s_error_flag (b : bool) (p : vctcxo_tamer_pkt_buf) : vctcxo_tamer_pkt_buf :=
  Pkt (ready p) (pps_1s_error p) (pps_10s_error p) (pps_100s_error p)
      (pps_1s_error_flag p) b (pps_100s_error_flag p).

Definition set_pps_100s_error_flag (b : bool) (p : vctcxo_tamer_pkt_buf) : vctcxo_tamer_pkt_buf :=
  Pkt (ready p) (pps_1s_error p) (pps_10s_error p) (pps_100s_error p)
      (pps_1s_error_flag p) (pps_10s_error_flag p) b.

Section Driver.

Context (P : platform).

Definition vctcxo_tamer_write (addr data : Z) (d : driver) : driver :=
  Driver (vctcxo_tamer_ctrl_reg d) (vctcxo_trim_dac_value d)
         (hw_writes d ++ [(addr, data)]).

Definition set_ctrl_reg (c : Z) (d : driver) : driver :=
  Driver c (vctcxo_trim_dac_value d) (hw_writes d).

Definition vctcxo_tamer_reset_counters (reset : bool) (d : driver) : driver :=
  let d1 :=
    if reset
    then set_ctrl_reg (set_bits8 (vctcxo_tamer_ctrl_reg d) VT_CTRL_RESET) d
    else set_ctrl_reg (clear_bits8 (vctcxo_tamer_ctrl_reg d) VT_CTRL_RESET) d in
  vctcxo_tamer_write (VT_CTRL_ADDR P) (vctcxo_tamer_ctrl_reg d1) d1.

Definition vctcxo_tamer_enable_isr (enable : bool) (d : driver) : driver :=
  let d1 :=
    if enable
    then set_ctrl_reg (set_bits8 (vctcxo_tamer_ctrl_reg d) VT_CTRL_IRQ_EN) d
    else set_ctrl_reg (clear_bits8 (vctcxo_tamer_ctrl_reg d) VT_CTRL_IRQ_EN) d in
  vctcxo_tamer_write (VT_CTRL_ADDR P) (vctcxo_tamer_ctrl_reg d1) d1.

(** The written byte is the [uint8_t] argument of [vctcxo_tamer_write];
    the cached register is not assigned. *)
Definition vctcxo_tamer_clear_isr (d : driver) : driver :=
  vctcxo_tamer_write (VT_CTRL_ADDR P)
    (to_uint8 (Z.lor (vctcxo_tamer_ctrl_reg d) VT_CTRL_IRQ_CLR)) d.

Definition valid_mode (mode : Z) : bool :=
  (mode =? VCTCXO_TAMER_DISABLED) || (mode =? VCTCXO_TAMER_1_PPS)
  || (mode =? VCTCXO_TAMER_10_MHZ).

Definition vctcxo_tamer_set_tune_mode (mode : Z) (d : driver) : driver :=
  if valid_mode mode then
    let d1 := vctcxo_tamer_enable_isr false d in
    (* Set tuning mode. *)
    let c1 := clear_bits8 (vctcxo_tamer_ctrl_reg d1) VT_CTRL_TUNE_MODE in
    let c2 := to_uint8 (Z.lor c1 (Z.shiftl (to_uint8 mode) 6)) in
    let d2 := set_ctrl_reg c2 d1 in
    let d3 := vctcxo_tamer_write (VT_CTRL_ADDR P) (vctcxo_tamer_ctrl_reg d2) d2 in
    (* Reset the counters. *)
    let d4 := vctcxo_tamer_reset_counters true d3 in
    (* Take counters out of reset if tuning mode is not DISABLED. *)
    let d5 := if negb (mode =? 0x00) then vctcxo_tamer_reset_counters false d4 else d4 in
    if (mode =? VCTCXO_TAMER_1_PPS) || (mode =? VCTCXO_TAMER_10_MHZ)
    then vctcxo_tamer_enable_isr true d5
    else d5
  else
    (* Erroneous value *)
    d.

(** The register bank as the handler reads it: address to byte. *)
Definition reg_bank : Type := Z -> Z.

Definition vctcxo_tamer_read (regs : reg_bank) (addr : Z) : Z :=
  to_uint8 (regs (to_uint8 addr)).

(** Four byte reads at [offset++] ([offset] is a [uint8_t]), or-ed into an
    [int32_t], least significant byte first. *)
Definition vctcxo_tamer_read_count (regs : reg_bank) (addr : Z) : Z :=
  let offset := to_uint8 addr in
  let b0 := vctcxo_tamer_read regs offset in
  let b1 := vctcxo_tamer_read regs (to_uint8 (offset + 1)) in
  let b2 := vctcxo_tamer_read regs (to_uint8 (offset + 2)) in
  let b3 := vctcxo_tamer_read regs (to_uint8 (offset + 3)) in
  to_int32 (Z.lor (Z.lor (Z.lor (Z.shiftl b0 0) (Z.shiftl b1 8))
                         (Z.shiftl b2 16)) (Z.shiftl b3 24)).

Definition set_trim_dac_value (v : Z) (d : driver) : driver :=
  Driver (vctcxo_tamer_ctrl_reg d) v (hw_writes d).

(** The argument is a [uint16_t]. *)
Definition vctcxo_trim_dac_write (val : Z) (d : driver) : driver :=
  let val := to_uint16 val in
  let d1 := set_trim_dac_value val d in
  let tuned_val_lsb := to_uint8 (Z.shiftr (Z.land val 0x00FF) 0) in
  let tuned_val_msb := to_uint8 (Z.shiftr (Z.land val 0xFF00) 8) in
  let d2 := vctcxo_tamer_write (VT_DAC_TUNNED_VAL_ADDR0 P) tuned_val_lsb d1 in
  vctcxo_tamer_write (VT_DAC_TUNNED_VAL_ADDR1 P) tuned_val_msb d2.

(** The interrupt handler, on the driver state and the mailbox [*pkt]. *)
Definition vctcxo_tamer_isr (regs : reg_bank)
    (dp : driver * vctcxo_tamer_pkt_buf) : driver * vctcxo_tamer_pkt_buf :=
  let '(d, pkt) := dp in
  (* Disable interrupts. *)
  let d := vctcxo_tamer_enable_isr false d in
  (* Reset (stop) the PPS counters. *)
  let d := vctcxo_tamer_reset_counters true d in
  (* Read the current count values. *)
  let pkt := set_pps_1s_error (vctcxo_tamer_read_count regs (VT_ERR_1S_ADDR P)) pkt in
  let pkt := set_pps_10s_error (vctcxo_tamer_read_count regs (VT_ERR_10S_ADDR P)) pkt in
  let pkt := set_pps_100s_error (vctcxo_tamer_read_count regs (VT_ERR_100S_ADDR P)) pkt in
  (* Read the error status register. *)
  let error_status := vctcxo_tamer_read regs (VT_STAT_ADDR P) in
  (* Set the appropriate flags in the packet buffer. *)
  let pkt := set_pps_1s_error_flag (mask_test error_status (VT_STAT_ERR_1S P)) pkt in
  let pkt := set_pps_10s_error_flag (mask_test error_status (VT_STAT_ERR_10S P)) pkt in
  let pkt := set_pps_100s_error_flag (mask_test error_status (VT_STAT_ERR_100S P)) pkt in
  (* Clear interrupt. *)
  let d := vctcxo_tamer_clear_isr d in
  (* Tell the main loop that there is a request pending. *)
  (d, set_ready true pkt).

Definition vctcxo_tamer_init (d : driver) : driver :=
  vctcxo_tamer_set_tune_mode VCTCXO_TAMER_1_PPS
    (vctcxo_tamer_write (VT_STATE_ADDR P) 0x00 d).

Definition vctcxo_tamer_dis (d : driver) : driver :=
  vctcxo_tamer_write (VT_STATE_ADDR P) 0x00
    (vctcxo_tamer_set_tune_mode VCTCXO_TAMER_DISABLED d).

End Driver.

(* ================================================================== *)
(** ** The calibration engine ([main.c]) *)

(** Modelled from the spec: [point_t] and [line_t] are declared in the
    missing header.  A point is a (measured error, trim code) pair: [x] is
    assigned from the [int32_t] error counts, [y] from the [uint16_t] DAC
    limits; [slope] is a [float] and [y_intercept] a trim code
    ([uint16_t]). *)
Record point_t : Type := Point { x : Z; y : Z }.

Record line_t : Type := Line {
  point0 : point_t;
  point1 : point_t;
  slope : F32.float;
  y_intercept : Z
}.

Definition set_point0_x (v : Z) (l : line_t) : line_t :=
  Line (Point v (y (point0 l))) (point1 l) (slope l) (y_intercept l).
Definition set_point1_x (v : Z) (l : line_t) : line_t :=
  Line (point0 l) (Point v (y (point1 l))) (slope l) (y_intercept l).
Definition set_slope (f : F32.float) (l : line_t) : line_t :=
  Line (point0 l) (point1 l) f (y_intercept l).
Definition set_y_intercept (v : Z) (l : line_t) : line_t :=
  Line (point0 l) (point1 l) (slope l) v.

(** [state_t], with the four states that [main] dispatches on. *)
Inductive state_t : Type :=
  | COARSE_TUNE_MIN
  | COARSE_TUNE_MAX
  | COARSE_TUNE_DONE
  | FINE_TUNE.

(** The locals of [main] that live across loop iterations, with the
    globals of the driver and the mailbox. *)
Record main_state : Type := MainState {
  drv : driver;
  vctcxo_tamer_pkt : vctcxo_tamer_pkt_buf;
  trimdac_cal_line : line_t;
  tune_state : state_t;
  vctcxo_tamer_en : Z;
  vctcxo_tamer_en_old : Z
}.

(** What one loop iteration reads from outside: the enable status CSR,
    the register bank at the status poll, and the register bank seen by
    the interrupt handler if it runs. *)
Record loop_input : Type := LoopInput {
  status_csr : Z;
  poll_regs : reg_bank;
  isr_regs : reg_bank
}.

Section Main.

Context (P : platform).

Definition trimdac_min : Z := 0x0000.
Definition trimdac_max : Z := to_uint16 (CONFIG_DAC_MAX P).

Definition clamp_dac (new_value : Z) : Z :=
  if new_value >? CONFIG_DAC_MAX P then CONFIG_DAC_MAX P
  else if new_value <? 0 then 0
  else new_value.

(** Lines 69-70: the new value, computed in signed 32-bit arithmetic;
    the quotient is that of a [long] by an [int], truncated toward zero. *)
Definition adjust_new_value (error : Z) (slope : F32.float) (scale : Z)
    (d : driver) : Z :=
  to_int32
    (to_int32 (vctcxo_trim_dac_value d) -
     to_int32 (Z.quot (F32.lroundf (lroundf_unspecified P)
                         (F32.mul (F32.of_int error) slope)) scale)).

Definition adjust_trim_dac (error : Z) (slope : F32.float) (scale : Z)
    (d : driver) : driver :=
  (* Compute new trim DAC value *)
  let new_value := adjust_new_value error slope scale d in
  (* Clamp the value to the DAC limits *)
  let new_value := clamp_dac new_value in
  (* Update global variable *)
  let d := set_trim_dac_value (to_uint16 new_value) d in
  (* Write value to VCTCXO Tamer. *)
  vctcxo_trim_dac_write P (vctcxo_trim_dac_value d) d.

(** Lines 219-230 of [main.c]: the line through the two recorded points. *)
Definition cal_line (l : line_t) : line_t :=
  let dx := to_int32 (x (point1 l) - x (point0 l)) in
  if negb (dx =? 0) then
    let l :=
      set_slope (F32.div (F32.of_int (y (point1 l) - y (point0 l)))
                         (F32.of_int dx)) l in
    set_y_intercept
      (to_uint16
         (y (point0 l) -
          to_uint16 (F32.lroundf (lroundf_unspecified P)
                       (F32.mul (slope l) (F32.of_int (x (point0 l))))))) l
  else
    (* Handle division by zero (rare, but set to default). *)
    set_y_intercept VCTCXO_DEFAULT_DAC_VALUE l.

(** The four cases of the [switch], each on the driver and the line, with
    the state it selects next. *)
Definition coarse_tune_min (pkt : vctcxo_tamer_pkt_buf) (dl : driver * line_t)
    : driver * line_t * state_t :=
  let '(d, l) := dl in
  let d := vctcxo_trim_dac_write P trimdac_min d in
  let d := vctcxo_tamer_reset_counters P true d in
  (d, l, COARSE_TUNE_MAX).

Definition coarse_tune_max (pkt : vctcxo_tamer_pkt_buf) (dl : driver * line_t)
    : driver * line_t * state_t :=
  let '(d, l) := dl in
  let l := set_point0_x (pps_1s_error pkt) l in
  let d := vctcxo_trim_dac_write P trimdac_max d in
  let d := vctcxo_tamer_reset_counters P true d in
  (d, l, COARSE_TUNE_DONE).

Definition coarse_tune_done (pkt : vctcxo_tamer_pkt_buf) (dl : driver * line_t)
    : driver * line_t * state_t :=
  let '(d, l) := dl in
  let d := vctcxo_tamer_write (VT_STATE_ADDR P) 0x01 d in
  let l := set_point1_x (pps_1s_error pkt) l in
  let l := cal_line l in
  let d := vctcxo_trim_dac_write P (y_intercept l) d in
  (d, l, FINE_TUNE).

Definition fine_tune (pkt : vctcxo_tamer_pkt_buf) (dl : driver * line_t)
    : driver * line_t * state_t :=
  let '(d, l) := dl in
  let d :=
    if pps_1s_error_flag pkt then
      adjust_trim_dac (pps_1s_error pkt) (slope l) 1 d
    else if pps_10s_error_flag pkt then
      adjust_trim_dac (pps_10s_error pkt) (slope l) 10 d
    else if pps_100s_error_flag pkt then
      adjust_trim_dac (pps_100s_error pkt) (slope l) 100 d
    else d in
  (d, l, FINE_TUNE).

(** Lines 157-283: the calibration FSM, run when the mailbox is ready. *)
Definition calibration_fsm (s : main_state) : main_state :=
  if ready (vctcxo_tamer_pkt s) then
    let pkt := set_ready false (vctcxo_tamer_pkt s) in
    let dl := (drv s, trimdac_cal_line s) in
    let '(d, l, next) :=
      match tune_state s with
      | COARSE_TUNE_MIN => coarse_tune_min pkt dl
      | COARSE_TUNE_MAX => coarse_tune_max pkt dl
      | COARSE_TUNE_DONE => coarse_tune_done pkt dl
      | FINE_TUNE => fine_tune pkt dl
      end in
    (* Take PPS counters out of reset. *)
    let d := vctcxo_tamer_reset_counters P false d in
    (* Enable interrupts. *)
    let d := vctcxo_tamer_enable_isr P true d in
    MainState d pkt l next (vctcxo_tamer_en s) (vctcxo_tamer_en_old s)
  else s.

(** Lines 132-133: sample the enable bit. *)
Definition poll_enable (inp : loop_input) (s : main_state) : main_state :=
  MainState (drv s) (vctcxo_tamer_pkt s) (trimdac_cal_line s) (tune_state s)
            (to_uint8 (Z.land (status_csr inp) 1)) (vctcxo_tamer_en s).

(** Lines 136-138: run the handler when the status register is non-zero. *)
Definition poll_error_status (inp : loop_input) (s : main_state) : main_state :=
  if negb (vctcxo_tamer_read (poll_regs inp) (VT_STAT_ADDR P) =? 0) then
    let '(d, pkt) := vctcxo_tamer_isr P (isr_regs inp) (drv s, vctcxo_tamer_pkt s) in
    MainState d pkt (trimdac_cal_line s) (tune_state s)
              (vctcxo_tamer_en s) (vctcxo_tamer_en_old s)
  else s.

(** Lines 141-154: enable or disable the module on a change of the enable
    bit. *)
Definition enable_edge (s : main_state) : main_state :=
  if negb (vctcxo_tamer_en_old s =? vctcxo_tamer_en s) then
    if vctcxo_tamer_en s =? 0x01 then
      MainState (vctcxo_tamer_init P (drv s))
                (set_ready true (vctcxo_tamer_pkt s))
                (trimdac_cal_line s) COARSE_TUNE_MIN
                (vctcxo_tamer_en s) (vctcxo_tamer_en_old s)
    else
      MainState (vctcxo_tamer_dis P (drv s))
                (set_ready false (vctcxo_tamer_pkt s))
                (trimdac_cal_line s) COARSE_TUNE_MIN
                (vctcxo_tamer_en s) (vctcxo_tamer_en_old s)
  else s.

(** One iteration of [while (1)]. *)
Definition main_loop_body (inp : loop_input) (s : main_state) : main_state :=
  calibration_fsm (enable_edge (poll_error_status inp (poll_enable inp s))).

(** The state at the first iteration: zero-initialised globals, the
    default calibration line, and the default DAC value written. *)
Definition main_init : main_state :=
  MainState
    (vctcxo_trim_dac_write P VCTCXO_DEFAULT_DAC_VALUE (Driver 0 0 []))
    (Pkt false 0 0 0 false false false)
    (Line (Point 0 trimdac_min) (Point 0 trimdac_max) (S754_zero false) 0)
    COARSE_TUNE_MIN 0 0.

(** The loop run over a finite prefix of its inputs. *)
Fixpoint main_loop (inps : list loop_input) (s : main_state) : main_state :=
  match inps with
  | [] => s
  | inp :: rest => main_loop rest (main_loop_body inp s)
  end.

End Main.

(** A concrete platform to run the model on: register addresses of a
    typical tamer register map, a 16-bit DAC, and a C library whose
    [lroundf] answers 0 when out of range. *)
Definition sample_platform : platform :=
  Platform 0x00 0x01 0x04 0x0C 0x14 0x20 0x21 0x22
           0x01 0x02 0x04 65535 (fun _ => 0).

(* ================================================================== *)
(** ** Notions used to state the properties *)

(** The most recent register write, if any. *)
Definition last_written (d : driver) : option reg_write :=
  match rev (hw_writes d) with
  | [] => None
  | w :: _ => Some w
  end.

(** The cached control register is the byte that the hardware control
    register received last. *)
Definition cache_is_last_written (P : platform) (d : driver) : Prop :=
  last_written d = Some (VT_CTRL_ADDR P, vctcxo_tamer_ctrl_reg d).

(** A write of byte [c] to the control register. *)
Definition ctrl_write (P : platform) (c : Z) : reg_write := (VT_CTRL_ADDR P, c).

(** The bytes that a valid [vctcxo_tamer_set_tune_mode] sends, in order,
    computed from the cached control byte [c]. *)
Definition tune_mode_bytes (mode c : Z) : list Z :=
  let c1 := clear_bits8 c VT_CTRL_IRQ_EN in
  let c2 := to_uint8 (Z.lor (clear_bits8 c1 VT_CTRL_TUNE_MODE)
                            (Z.shiftl (to_uint8 mode) 6)) in
  let c3 := set_bits8 c2 VT_CTRL_RESET in
  let c4 := clear_bits8 c3 VT_CTRL_RESET in
  let c5 := set_bits8 c4 VT_CTRL_IRQ_EN in
  [c1; c2; c3] ++ (if mode =? VCTCXO_TAMER_DISABLED then [] else [c4; c5]).

(** The order of the calibration phases. *)
Definition next_state (t : state_t) : state_t :=
  match t with
  | COARSE_TUNE_MIN => COARSE_TUNE_MAX
  | COARSE_TUNE_MAX => COARSE_TUNE_DONE
  | COARSE_TUNE_DONE => FINE_TUNE
  | FINE_TUNE => FINE_TUNE
  end.

Section Observations.

Context (P : platform).

(** The sample that the handler reads out of a register bank. *)
Definition sample_of (regs : reg_bank) : vctcxo_tamer_pkt_buf :=
  let error_status := vctcxo_tamer_read regs (VT_STAT_ADDR P) in
  Pkt true
      (vctcxo_tamer_read_count regs (VT_ERR_1S_ADDR P))
      (vctcxo_tamer_read_count regs (VT_ERR_10S_ADDR P))
      (vctcxo_tamer_read_count regs (VT_ERR_100S_ADDR P))
      (mask_test error_status (VT_STAT_ERR_1S P))
      (mask_test error_status (VT_STAT_ERR_10S P))
      (mask_test error_status (VT_STAT_ERR_100S P)).

(** A trim-DAC write of code [v]: low byte, then high byte. *)
Definition dac_write_pair (v : Z) : list reg_write :=
  [(VT_DAC_TUNNED_VAL_ADDR0 P, v mod 256); (VT_DAC_TUNNED_VAL_ADDR1 P, v / 256)].

(** The trim code that lines 69-80 of [main.c] leave, spelled out from
    the cached code [cur]: the rounded product divided by the scale is
    subtracted in signed 32-bit arithmetic, the difference is clamped to
    [0, CONFIG_DAC_MAX] and stored in a [uint16_t]. *)
Definition corrected_code (cur error : Z) (sl : F32.float) (scale : Z) : Z :=
  let r := F32.lroundf (lroundf_unspecified P) (F32.mul (F32.of_int error) sl) in
  let v := to_int32 (to_int32 cur - to_int32 (Z.quot r scale)) in
  to_uint16 (if v >? CONFIG_DAC_MAX P then CONFIG_DAC_MAX P
             else if v <? 0 then 0
             else v).

(** The effects of one FSM run in the Fine phase that sends the trim
    codes [codes] to the DAC, in this order, and nothing else but the two
    control bytes that release the reset and enable the interrupt. *)
Definition fine_step_sends (s : main_state) (codes : list Z) : Prop :=
  let d := drv s in
  let s' := calibration_fsm P s in
  let c1 := clear_bits8 (vctcxo_tamer_ctrl_reg d) VT_CTRL_RESET in
  let c2 := set_bits8 c1 VT_CTRL_IRQ_EN in
  hw_writes (drv s') =
    hw_writes d ++ flat_map dac_write_pair codes
                ++ [ctrl_write P c1; ctrl_write P c2] /\
  vctcxo_trim_dac_value (drv s') = last codes (vctcxo_trim_dac_value d) /\
  vctcxo_tamer_ctrl_reg (drv s') = c2 /\
  tune_state s' = FINE_TUNE /\
  trimdac_cal_line s' = trimdac_cal_line s.

End Observations.

(* ================================================================== *)
(** ** Concrete inputs *)

(** A register bank whose status register reports the short window and
    whose short-window error counter holds the byte [e]. *)
Definition bank_short_error (e : Z) : reg_bank :=
  fun addr =>
    if addr =? VT_STAT_ADDR sample_platform then 0x01
    else if addr =? VT_ERR_1S_ADDR sample_platform then e
    else 0.

Definition idle_bank : reg_bank := fun _ => 0.

(** Enable, then a short-window error of 100 counts at the minimum code
    and of 60 counts at the maximum code. *)
Definition same_sign_run : list loop_input :=
  [ LoopInput 1 idle_bank idle_bank;
    LoopInput 1 (bank_short_error 100) (bank_short_error 100);
    LoopInput 1 (bank_short_error 60) (bank_short_error 60) ].

(** The line of the spec's scenario: errors of 100 and -50 counts. *)
Definition scenario_line : line_t :=
  Line (Point 100 0) (Point (-50) 65535) (S754_zero false) 0.

Definition scenario_slope : F32.float :=
  F32.div (F32.of_int 65535) (F32.of_int (-150)).

(** A Fine-phase state with a pending sample whose medium and long flags
    are set and whose short flag is not. *)
Definition fine_state_medium : main_state :=
  MainState (Driver 0x42 43690 [])
            (Pkt true 7 500 9000 false true true)
            (Line (Point 100 0) (Point (-50) 65535) scenario_slope 43690)
            FINE_TUNE 1 1.

(** A Fine-phase state with a pending sample and no flag set. *)
Definition fine_state_no_flag : main_state :=
  MainState (Driver 0x41 43690 [])
            (Pkt true 7 500 9000 false false false)
            (Line (Point 100 0) (Point (-50) 65535) scenario_slope 43690)
            FINE_TUNE 1 1.

(** A Fine-phase state with a pending sample whose medium and long flags
    are set and whose three errors lead to three different codes. *)
Definition fine_state_priority : main_state :=
  MainState (Driver 0x42 43690 [])
            (Pkt true 7 20 300 false true true)
            (Line (Point 100 0) (Point (-50) 65535) scenario_slope 43690)
            FINE_TUNE 1 1.

(** A register bank whose status register reports the short window and
    whose short-window error counter holds the 32-bit count [v], least
    significant byte first. *)
Definition bank_short_count (v : Z) : reg_bank :=
  fun addr =>
    if addr =? VT_STAT_ADDR sample_platform then 0x01
    else if (VT_ERR_1S_ADDR sample_platform <=? addr)
            && (addr <? VT_ERR_1S_ADDR sample_platform + 4)
         then (v / 2 ^ (8 * (addr - VT_ERR_1S_ADDR sample_platform))) mod 256
    else 0.

(** Enable, a short-window error of 100 counts at the minimum code and of
    -50 counts at the maximum code, then a short-window error of 4915200
    counts in the Fine phase. *)
Definition large_error_run : list loop_input :=
  [ LoopInput 1 idle_bank idle_bank;
    LoopInput 1 (bank_short_count 100) (bank_short_count 100);
    LoopInput 1 (bank_short_count (-50)) (bank_short_count (-50));
    LoopInput 1 (bank_short_count 4915200) (bank_short_count 4915200) ].

(* ================================================================== *)
(** ** Notions used to state the further properties *)

(** The four bytes that [vctcxo_tamer_read_count] reads, as an unsigned
    number, least significant byte first. *)
Definition count_bytes_value (regs : reg_bank) (addr : Z) : Z :=
  vctcxo_tamer_read regs (to_uint8 (addr + 0))
  + vctcxo_tamer_read regs (to_uint8 (addr + 1)) * 2 ^ 8
  + vctcxo_tamer_read regs (to_uint8 (addr + 2)) * 2 ^ 16
  + vctcxo_tamer_read regs (to_uint8 (addr + 3)) * 2 ^ 24.

(** The values that the cached control byte takes in a run of [main]:
    bits 0, 1 and 6 only. *)
Definition ctrl_values : list Z := [0x00; 0x01; 0x02; 0x03; 0x40; 0x41; 0x42; 0x43].

(** What holds of the state of [main] wherever the loop body stands. *)
Definition state_ok (P : platform) (s : main_state) : Prop :=
  In (vctcxo_tamer_ctrl_reg (drv s)) ctrl_values /\
  is_uint16 (vctcxo_trim_dac_value (drv s)) /\
  y (point0 (trimdac_cal_line s)) = trimdac_min /\
  y (point1 (trimdac_cal_line s)) = trimdac_max P /\
  is_int32 (x (point0 (trimdac_cal_line s))) /\
  is_int32 (x (point1 (trimdac_cal_line s))) /\
  is_uint16 (y_intercept (trimdac_cal_line s)) /\
  is_int32 (pps_1s_error (vctcxo_tamer_pkt s)) /\
  (vctcxo_tamer_en s = 0 \/ vctcxo_tamer_en s = 1).

(** What holds between two iterations of the loop. *)
Definition loop_inv (P : platform) (s : main_state) : Prop :=
  state_ok P s /\ ready (vctcxo_tamer_pkt s) = false.

(** The register bank as the writes leave it: the last byte written to
    each address, if any. *)
Definition reg_file : Type := Z -> option Z.

Definition apply_write (rf : reg_file) (w : reg_write) : reg_file :=
  fun addr => if addr =? fst w then Some (snd w) else rf addr.

Definition hw_regs (log : list reg_write) : reg_file :=
  fold_left apply_write log (fun _ => None).

(** The control, state and DAC registers are four different registers. *)
Definition distinct_registers (P : platform) : Prop :=
  VT_CTRL_ADDR P <> VT_DAC_TUNNED_VAL_ADDR0 P /\
  VT_CTRL_ADDR P <> VT_DAC_TUNNED_VAL_ADDR1 P /\
  VT_CTRL_ADDR P <> VT_STATE_ADDR P /\
  VT_STATE_ADDR P <> VT_DAC_TUNNED_VAL_ADDR0 P /\
  VT_STATE_ADDR P <> VT_DAC_TUNNED_VAL_ADDR1 P /\
  VT_DAC_TUNNED_VAL_ADDR0 P <> VT_DAC_TUNNED_VAL_ADDR1 P.

(** The two DAC registers hold the bytes of the cached trim code. *)
Definition dac_shadowed (P : platform) (d : driver) : Prop :=
  hw_regs (hw_writes d) (VT_DAC_TUNNED_VAL_ADDR0 P)
    = Some (vctcxo_trim_dac_value d mod 256) /\
  hw_regs (hw_writes d) (VT_DAC_TUNNED_VAL_ADDR1 P)
    = Some (vctcxo_trim_dac_value d / 256).

(** The control register, once written, holds the cached control byte. *)
Definition ctrl_shadowed (P : platform) (d : driver) : Prop :=
  forall b : Z,
    hw_regs (hw_writes d) (VT_CTRL_ADDR P) = Some b ->
    b = vctcxo_tamer_ctrl_reg d.

(** The byte last written to the state register. *)
Definition state_reg (P : platform) (d : driver) : option Z :=
  hw_regs (hw_writes d) (VT_STATE_ADDR P).

(** The state register holds 1 exactly in the Fine phase. *)
Definition state_reg_tracks_phase (P : platform) (s : main_state) : Prop :=
  state_reg P (drv s) = Some 1 <-> tune_state s = FINE_TUNE.

(** The state after the status poll: the DAC registers are shadowed, and
    so is the control register unless a sample has just been published. *)
Definition shadowed_or_pending (P : platform) (s : main_state) : Prop :=
  dac_shadowed P (drv s) /\
  (ctrl_shadowed P (drv s) \/ ready (vctcxo_tamer_pkt s) = true).

(** A register bank that holds -50 as four little-endian bytes from
    address 4 on. *)
Definition minus_fifty_bank : reg_bank :=
  fun addr => (-50 / 2 ^ (8 * (addr - 4))) mod 256.

(** An enabled Fine-phase state with an empty mailbox. *)
Definition enabled_fine_state : main_state :=
  MainState (Driver 0x42 43690 [])
            (Pkt false 7 500 9000 false false false)
            (Line (Point 100 0) (Point (-50) 65535) scenario_slope 43690)
            FINE_TUNE 1 1.

(* ================================================================== *)
(** ** Facts on the fixed-width conversions *)

Module CIntFacts.

Lemma to_uint16_range z : 0 <= to_uint16 z <= 65535.
Proof.
  unfold to_uint16. change (2 ^ 16) with 65536.
  pose proof (Z.mod_pos_bound z 65536). lia.
Qed.

Lemma to_uint8_small z : 0 <= z < 256 -> to_uint8 z = z.
Proof. intros H. unfold to_uint8. apply Z.mod_small. exact H. Qed.

Lemma to_uint16_small z : is_uint16 z -> to_uint16 z = z.
Proof. unfold is_uint16, to_uint16. intros H. apply Z.mod_small. lia. Qed.

Lemma to_int32_small z : is_int32 z -> to_int32 z = z.
Proof.
  unfold is_int32, to_int32. intros H.
  rewrite Z.mod_small; lia.
Qed.

Lemma testbit_to_uint8 z n :
  0 <= n -> Z.testbit (to_uint8 z) n = (n <? 8) && Z.testbit z n.
Proof.
  intros Hn. unfold to_uint8. destruct (Z.ltb_spec n 8) as [Hlt | Hge]; cbn [andb].
  - apply Z.mod_pow2_bits_low. exact Hlt.
  - apply Z.mod_pow2_bits_high. lia.
Qed.

Lemma testbit_set_bits8 v mask n :
  0 <= n < 8 ->
  Z.testbit (set_bits8 v mask) n = Z.testbit v n || Z.testbit mask n.
Proof.
  intros [H0 H8]. unfold set_bits8.
  rewrite testbit_to_uint8 by exact H0.
  rewrite Z.lor_spec. apply Z.ltb_lt in H8. rewrite H8. reflexivity.
Qed.

Lemma testbit_clear_bits8 v mask n :
  0 <= n < 8 ->
  Z.testbit (clear_bits8 v mask) n = Z.testbit v n && negb (Z.testbit mask n).
Proof.
  intros [H0 H8]. unfold clear_bits8.
  rewrite testbit_to_uint8 by exact H0.
  rewrite Z.land_spec, Z.lnot_spec by exact H0.
  apply Z.ltb_lt in H8. rewrite H8. reflexivity.
Qed.

(** The two bytes that [vctcxo_trim_dac_write] sends are the base-256
    digits of the code. *)
Lemma dac_low_byte v :
  to_uint8 (Z.shiftr (Z.land v 0x00FF) 0) = v mod 256.
Proof.
  rewrite Z.shiftr_0_r. change 0x00FF with (Z.ones 8).
  rewrite Z.land_ones by lia. unfold to_uint8.
  rewrite Z.mod_mod by (change (2 ^ 8) with 256; lia). reflexivity.
Qed.

Lemma dac_high_byte v :
  is_uint16 v -> to_uint8 (Z.shiftr (Z.land v 0xFF00) 8) = v / 256.
Proof.
  unfold is_uint16. intros Hv.
  rewrite Z.shiftr_land. change (Z.shiftr 0xFF00 8) with (Z.ones 8).
  rewrite Z.land_ones by lia. rewrite Z.shiftr_div_pow2 by lia.
  change (2 ^ 8) with 256.
  assert (Hq : 0 <= v / 256 < 256).
  { split; [apply Z.div_pos; lia | apply Z.div_lt_upper_bound; lia]. }
  rewrite Z.mod_small by exact Hq. apply to_uint8_small. exact Hq.
Qed.

End CIntFacts.
Import CIntFacts.

(* ================================================================== *)
(** ** Properties of the peripheral driver *)

(** Unfolds the driver calls of a goal down to field values. *)
Ltac driver_steps :=
  cbn [vctcxo_tamer_enable_isr vctcxo_tamer_reset_counters vctcxo_tamer_write
       set_ctrl_reg set_trim_dac_value hw_writes vctcxo_tamer_ctrl_reg
       vctcxo_trim_dac_value].

Section DriverProps.

Context (P : platform).

Lemma last_written_app (d : driver) (l : list reg_write) (w : reg_write) :
  hw_writes d = l ++ [w] -> last_written d = Some w.
Proof.
  intros H. unfold last_written. rewrite H, rev_app_distr. reflexivity.
Qed.

Lemma reset_counters_spec (b : bool) (d : driver) :
  let d' := vctcxo_tamer_reset_counters P b d in
  hw_writes d' = hw_writes d ++ [ctrl_write P (vctcxo_tamer_ctrl_reg d')] /\
  vctcxo_tamer_ctrl_reg d' =
    (if b then set_bits8 (vctcxo_tamer_ctrl_reg d) VT_CTRL_RESET
     else clear_bits8 (vctcxo_tamer_ctrl_reg d) VT_CTRL_RESET) /\
  vctcxo_trim_dac_value d' = vctcxo_trim_dac_value d.
Proof. destruct b; repeat split. Qed.

Lemma enable_isr_spec (b : bool) (d : driver) :
  let d' := vctcxo_tamer_enable_isr P b d in
  hw_writes d' = hw_writes d ++ [ctrl_write P (vctcxo_tamer_ctrl_reg d')] /\
  vctcxo_tamer_ctrl_reg d' =
    (if b then set_bits8 (vctcxo_tamer_ctrl_reg d) VT_CTRL_IRQ_EN
     else clear_bits8 (vctcxo_tamer_ctrl_reg d) VT_CTRL_IRQ_EN) /\
  vctcxo_trim_dac_value d' = vctcxo_trim_dac_value d.
Proof. destruct b; repeat split. Qed.

(** Setting or clearing one bit of the cached byte: that bit takes the
    requested value and the other seven keep theirs. *)
Lemma update_bit8 (c : Z) (k : Z) (b : bool) :
  0 <= k < 8 ->
  let c' := if b then set_bits8 c (2 ^ k) else clear_bits8 c (2 ^ k) in
  Z.testbit c' k = b /\
  (forall n, 0 <= n < 8 -> n <> k -> Z.testbit c' n = Z.testbit c n).
Proof.
  intros Hk. destruct b; cbv zeta; split.
  - rewrite testbit_set_bits8 by exact Hk.
    rewrite Z.pow2_bits_true by lia. apply orb_true_r.
  - intros n Hn Hne. rewrite testbit_set_bits8 by exact Hn.
    rewrite Z.pow2_bits_false by lia. apply orb_false_r.
  - rewrite testbit_clear_bits8 by exact Hk.
    rewrite Z.pow2_bits_true by lia. apply andb_false_r.
  - intros n Hn Hne. rewrite testbit_clear_bits8 by exact Hn.
    rewrite Z.pow2_bits_false by lia. apply andb_true_r.
Qed.

(** C9 (as amended) -- [vctcxo_tamer_reset_counters] and
    [vctcxo_tamer_enable_isr] read-modify-write the cached control
    register (bit 0, respectively bit 1, takes the requested value, the
    other bits of the byte are kept) and send the whole cached byte to the
    control register, so that afterwards the cache is the byte written
    last.  [vctcxo_tamer_clear_isr] sends the cached byte with the
    interrupt-clear bit (bit 2) set and leaves the cache as it was. *)
Theorem ctrl_shadow_rewrite (d : driver) (b : bool) :
  (let d' := vctcxo_tamer_reset_counters P b d in
   hw_writes d' = hw_writes d ++ [ctrl_write P (vctcxo_tamer_ctrl_reg d')] /\
   cache_is_last_written P d' /\
   Z.testbit (vctcxo_tamer_ctrl_reg d') 0 = b /\
   (forall n, 0 < n < 8 ->
      Z.testbit (vctcxo_tamer_ctrl_reg d') n = Z.testbit (vctcxo_tamer_ctrl_reg d) n))
  /\
  (let d' := vctcxo_tamer_enable_isr P b d in
   hw_writes d' = hw_writes d ++ [ctrl_write P (vctcxo_tamer_ctrl_reg d')] /\
   cache_is_last_written P d' /\
   Z.testbit (vctcxo_tamer_ctrl_reg d') 1 = b /\
   (forall n, 0 <= n < 8 -> n <> 1 ->
      Z.testbit (vctcxo_tamer_ctrl_reg d') n = Z.testbit (vctcxo_tamer_ctrl_reg d) n))
  /\
  (let d' := vctcxo_tamer_clear_isr P d in
   let sent := to_uint8 (Z.lor (vctcxo_tamer_ctrl_reg d) VT_CTRL_IRQ_CLR) in
   vctcxo_tamer_ctrl_reg d' = vctcxo_tamer_ctrl_reg d /\
   hw_writes d' = hw_writes d ++ [ctrl_write P sent] /\
   Z.testbit sent 2 = true /\
   (forall n, 0 <= n < 8 -> n <> 2 ->
      Z.testbit sent n = Z.testbit (vctcxo_tamer_ctrl_reg d) n)).
Proof.
  split; [| split].
  - destruct (reset_counters_spec b d) as (Hw & Hc & _). cbv zeta.
    split; [exact Hw |]. split; [eapply last_written_app; exact Hw |].
    rewrite Hc.
    destruct (update_bit8 (vctcxo_tamer_ctrl_reg d) 0 b ltac:(lia)) as [H1 H2].
    split; [exact H1 |]. intros n Hn. apply H2; lia.
  - destruct (enable_isr_spec b d) as (Hw & Hc & _). cbv zeta.
    split; [exact Hw |]. split; [eapply last_written_app; exact Hw |].
    rewrite Hc.
    destruct (update_bit8 (vctcxo_tamer_ctrl_reg d) 1 b ltac:(lia)) as [H1 H2].
    split; [exact H1 |]. exact H2.
  - cbv zeta. split; [reflexivity |]. split; [reflexivity |].
    destruct (update_bit8 (vctcxo_tamer_ctrl_reg d) 2 true ltac:(lia)) as [H1 H2].
    split; [exact H1 | exact H2].
Qed.

(** C7 -- A mode outside {Disabled, PPS1, MHz10} makes
    [vctcxo_tamer_set_tune_mode] return at once: the driver state (cached
    control register, cached DAC value, log of register writes) is the
    one it was called with. *)
Theorem set_tune_mode_invalid_noop (mode : Z) (d : driver) :
  mode <> VCTCXO_TAMER_DISABLED ->
  mode <> VCTCXO_TAMER_1_PPS ->
  mode <> VCTCXO_TAMER_10_MHZ ->
  vctcxo_tamer_set_tune_mode P mode d = d.
Proof.
  intros H0 H1 H2. unfold vctcxo_tamer_set_tune_mode, valid_mode.
  apply Z.eqb_neq in H0, H1, H2. rewrite H0, H1, H2. reflexivity.
Qed.

Lemma set_tune_mode_writes (mode : Z) (d : driver) :
  valid_mode mode = true ->
  let d' := vctcxo_tamer_set_tune_mode P mode d in
  hw_writes d' =
    hw_writes d ++ map (ctrl_write P) (tune_mode_bytes mode (vctcxo_tamer_ctrl_reg d)) /\
  last_written d' = Some (ctrl_write P (vctcxo_tamer_ctrl_reg d')) /\
  vctcxo_trim_dac_value d' = vctcxo_trim_dac_value d.
Proof.
  intros Hv. unfold valid_mode in Hv.
  assert (Hm : mode = 0 \/ mode = 1 \/ mode = 2).
  { apply orb_true_iff in Hv. destruct Hv as [Hv | Hv].
    - apply orb_true_iff in Hv. destruct Hv as [Hv | Hv]; apply Z.eqb_eq in Hv.
      + left. exact Hv.
      + right. left. exact Hv.
    - apply Z.eqb_eq in Hv. right. right. exact Hv. }
  destruct Hm as [-> | [-> | ->]]; cbv zeta;
    unfold vctcxo_tamer_set_tune_mode, tune_mode_bytes, last_written;
    cbn [valid_mode Z.eqb orb negb VCTCXO_TAMER_DISABLED VCTCXO_TAMER_1_PPS
         VCTCXO_TAMER_10_MHZ Pos.eqb];
    driver_steps; cbn [map app];
    repeat rewrite <- app_assoc; cbn [app];
    (split; [reflexivity |]); (split; [| reflexivity]);
    repeat rewrite rev_app_distr; reflexivity.
Qed.

Lemma tune_mode_field (mode c1 : Z) :
  mode = 0 \/ mode = 1 \/ mode = 2 ->
  let c2 := to_uint8 (Z.lor (clear_bits8 c1 VT_CTRL_TUNE_MODE)
                            (Z.shiftl (to_uint8 mode) 6)) in
  Z.testbit c2 6 = Z.testbit mode 0 /\
  Z.testbit c2 7 = Z.testbit mode 1 /\
  (forall n, 0 <= n < 6 -> Z.testbit c2 n = Z.testbit c1 n).
Proof.
  intros Hm c2. subst c2.
  assert (Hbit : forall n, 0 <= n < 8 ->
            Z.testbit (to_uint8 (Z.lor (clear_bits8 c1 VT_CTRL_TUNE_MODE)
                                       (Z.shiftl (to_uint8 mode) 6))) n =
            Z.testbit c1 n && negb (Z.testbit VT_CTRL_TUNE_MODE n)
            || Z.testbit (Z.shiftl (to_uint8 mode) 6) n).
  { intros n Hn. rewrite testbit_to_uint8 by lia.
    rewrite Z.lor_spec, testbit_clear_bits8 by exact Hn.
    destruct Hn as [_ Hn]. apply Z.ltb_lt in Hn. rewrite Hn. reflexivity. }
  split; [| split].
  - rewrite Hbit by lia.
    destruct Hm as [-> | [-> | ->]]; cbn; rewrite andb_false_r; reflexivity.
  - rewrite Hbit by lia.
    destruct Hm as [-> | [-> | ->]]; cbn; rewrite andb_false_r; reflexivity.
  - intros n Hn. rewrite Hbit by lia.
    assert (Hc : n = 0 \/ n = 1 \/ n = 2 \/ n = 3 \/ n = 4 \/ n = 5) by lia.
    destruct Hm as [-> | [-> | ->]];
      destruct Hc as [-> | [-> | [-> | [-> | [-> | ->]]]]]; cbn;
      rewrite andb_true_r, orb_false_r; reflexivity.
Qed.

(** C8 -- For a valid mode, [vctcxo_tamer_set_tune_mode] sends to the
    control register, in this order: the cached byte with the
    interrupt-enable bit cleared; that byte with bits 6-7 replaced by the
    mode; that byte with the reset bit set; then, if and only if the mode
    is not Disabled, the byte with the reset bit cleared followed by the
    byte with the interrupt-enable bit set (the two non-disabled modes
    are exactly PPS1 and MHz10).  The cache ends as the last byte sent. *)
Theorem set_tune_mode_sequence (mode : Z) (d : driver) :
  mode = VCTCXO_TAMER_DISABLED \/ mode = VCTCXO_TAMER_1_PPS \/
  mode = VCTCXO_TAMER_10_MHZ ->
  let d' := vctcxo_tamer_set_tune_mode P mode d in
  exists c1 c2 c3 c4 c5 : Z,
    hw_writes d' =
      hw_writes d ++
      map (ctrl_write P)
          ([c1; c2; c3] ++
           (if mode =? VCTCXO_TAMER_DISABLED then [] else [c4; c5])) /\
    vctcxo_tamer_ctrl_reg d' =
      (if mode =? VCTCXO_TAMER_DISABLED then c3 else c5) /\
    (* interrupt signaling off first *)
    (Z.testbit c1 1 = false /\
     forall n, 0 <= n < 8 -> n <> 1 ->
       Z.testbit c1 n = Z.testbit (vctcxo_tamer_ctrl_reg d) n) /\
    (* the tune-mode field, bits 6-7 *)
    (Z.testbit c2 6 = Z.testbit mode 0 /\
     Z.testbit c2 7 = Z.testbit mode 1 /\
     forall n, 0 <= n < 6 -> Z.testbit c2 n = Z.testbit c1 n) /\
    (* counters into reset *)
    (Z.testbit c3 0 = true /\
     forall n, 0 <= n < 8 -> n <> 0 -> Z.testbit c3 n = Z.testbit c2 n) /\
    (* reset released *)
    (Z.testbit c4 0 = false /\
     forall n, 0 <= n < 8 -> n <> 0 -> Z.testbit c4 n = Z.testbit c3 n) /\
    (* interrupt signaling back on *)
    (Z.testbit c5 1 = true /\
     forall n, 0 <= n < 8 -> n <> 1 -> Z.testbit c5 n = Z.testbit c4 n).
Proof.
  intros Hm d'.
  assert (Hv : valid_mode mode = true).
  { destruct Hm as [-> | [-> | ->]]; reflexivity. }
  destruct (set_tune_mode_writes mode d Hv) as (Hw & Hl & _).
  fold d' in Hw, Hl. unfold tune_mode_bytes in Hw.
  set (c := vctcxo_tamer_ctrl_reg d) in *.
  set (c1 := clear_bits8 c VT_CTRL_IRQ_EN) in *.
  set (c2 := to_uint8 (Z.lor (clear_bits8 c1 VT_CTRL_TUNE_MODE)
                             (Z.shiftl (to_uint8 mode) 6))) in *.
  set (c3 := set_bits8 c2 VT_CTRL_RESET) in *.
  set (c4 := clear_bits8 c3 VT_CTRL_RESET) in *.
  set (c5 := set_bits8 c4 VT_CTRL_IRQ_EN) in *.
  exists c1, c2, c3, c4, c5.
  split; [exact Hw |]. split.
  { unfold last_written in Hl. rewrite Hw in Hl.
    destruct Hm as [-> | [-> | ->]]; cbn [Z.eqb VCTCXO_TAMER_DISABLED
      VCTCXO_TAMER_1_PPS VCTCXO_TAMER_10_MHZ app map] in Hl |- *;
      rewrite rev_app_distr in Hl; cbn [rev app] in Hl;
      unfold ctrl_write in Hl; congruence. }
  split; [exact (update_bit8 c 1 false ltac:(lia)) |].
  split; [exact (tune_mode_field mode c1 Hm) |].
  split; [exact (update_bit8 c2 0 true ltac:(lia)) |].
  split; [exact (update_bit8 c3 0 false ltac:(lia)) |].
  exact (update_bit8 c4 1 true ltac:(lia)).
Qed.

End DriverProps.

(* ================================================================== *)
(** ** The sample mailbox *)

Section Mailbox.

Context (P : platform).

Lemma isr_publishes (regs : reg_bank) (d : driver) (pkt : vctcxo_tamer_pkt_buf) :
  snd (vctcxo_tamer_isr P regs (d, pkt)) = sample_of P regs.
Proof. reflexivity. Qed.

(** C5 -- Two runs of the interrupt handler with no consumption in
    between leave in the mailbox exactly the error counts and flags read
    by the second run, with [ready] set: nothing of the first sample, nor
    of what the mailbox held before, is left. *)
Theorem isr_overwrites_unconsumed_sample
    (regs1 regs2 : reg_bank) (d : driver) (pkt : vctcxo_tamer_pkt_buf) :
  let after1 := vctcxo_tamer_isr P regs1 (d, pkt) in
  let after2 := vctcxo_tamer_isr P regs2 after1 in
  snd after1 = sample_of P regs1 /\
  snd after2 = sample_of P regs2 /\
  ready (snd after2) = true /\
  pps_1s_error (snd after2) = vctcxo_tamer_read_count regs2 (VT_ERR_1S_ADDR P) /\
  pps_10s_error (snd after2) = vctcxo_tamer_read_count regs2 (VT_ERR_10S_ADDR P) /\
  pps_100s_error (snd after2) = vctcxo_tamer_read_count regs2 (VT_ERR_100S_ADDR P) /\
  pps_1s_error_flag (snd after2) =
    mask_test (vctcxo_tamer_read regs2 (VT_STAT_ADDR P)) (VT_STAT_ERR_1S P) /\
  pps_10s_error_flag (snd after2) =
    mask_test (vctcxo_tamer_read regs2 (VT_STAT_ADDR P)) (VT_STAT_ERR_10S P) /\
  pps_100s_error_flag (snd after2) =
    mask_test (vctcxo_tamer_read regs2 (VT_STAT_ADDR P)) (VT_STAT_ERR_100S P).
Proof.
  intros after1 after2.
  assert (H1 : snd after1 = sample_of P regs1) by apply isr_publishes.
  assert (H2 : snd after2 = sample_of P regs2).
  { subst after2. destruct after1 as [d1 pkt1]. apply isr_publishes. }
  rewrite H2. repeat split; assumption.
Qed.

End Mailbox.

(* ================================================================== *)
(** ** The calibration state machine and the control loop *)

Section MainProps.

Context (P : platform).

Lemma fsm_phase (s : main_state) :
  tune_state (calibration_fsm P s) =
    (if ready (vctcxo_tamer_pkt s) then next_state (tune_state s)
     else tune_state s).
Proof.
  unfold calibration_fsm.
  destruct (ready (vctcxo_tamer_pkt s)); [| reflexivity].
  destruct (tune_state s); reflexivity.
Qed.

Lemma fsm_consumes (s : main_state) :
  ready (vctcxo_tamer_pkt (calibration_fsm P s)) = false.
Proof.
  unfold calibration_fsm.
  destruct (ready (vctcxo_tamer_pkt s)) eqn:Hr; [| exact Hr].
  destruct (tune_state s); reflexivity.
Qed.

Lemma enable_edge_phase (s : main_state) :
  tune_state (enable_edge P s) =
    (if vctcxo_tamer_en_old s =? vctcxo_tamer_en s then tune_state s
     else COARSE_TUNE_MIN).
Proof.
  unfold enable_edge.
  destruct (vctcxo_tamer_en_old s =? vctcxo_tamer_en s); cbn [negb];
    [reflexivity |].
  destruct (vctcxo_tamer_en s =? 1); reflexivity.
Qed.

Lemma poll_phase (inp : loop_input) (s : main_state) :
  tune_state (poll_error_status P inp (poll_enable inp s)) = tune_state s.
Proof.
  unfold poll_error_status.
  destruct (negb (vctcxo_tamer_read (poll_regs inp) (VT_STAT_ADDR P) =? 0));
    reflexivity.
Qed.

(** C4 -- The phase variable is assigned in two places only.  The
    calibration FSM moves it one step along CoarseMin -> CoarseMax ->
    CoarseDone -> Fine -> Fine exactly when it finds the mailbox ready
    (and it clears [ready]); otherwise it keeps it.  A change of the
    enable bit sets it to CoarseMin whatever it was; with no change it is
    kept.  The sample producer does not touch it.  One loop iteration is
    the composition of the three. *)
Theorem phase_transitions (inp : loop_input) (s : main_state) :
  tune_state (calibration_fsm P s) =
    (if ready (vctcxo_tamer_pkt s) then next_state (tune_state s)
     else tune_state s) /\
  ready (vctcxo_tamer_pkt (calibration_fsm P s)) = false /\
  tune_state (enable_edge P s) =
    (if vctcxo_tamer_en_old s =? vctcxo_tamer_en s then tune_state s
     else COARSE_TUNE_MIN) /\
  tune_state (poll_error_status P inp (poll_enable inp s)) = tune_state s /\
  (let polled := poll_error_status P inp (poll_enable inp s) in
   let reset_or_kept :=
     if vctcxo_tamer_en s =? to_uint8 (Z.land (status_csr inp) 1)
     then tune_state s else COARSE_TUNE_MIN in
   tune_state (main_loop_body P inp s) =
     (if ready (vctcxo_tamer_pkt (enable_edge P polled))
      then next_state reset_or_kept else reset_or_kept)).
Proof.
  split; [apply fsm_phase |].
  split; [apply fsm_consumes |].
  split; [apply enable_edge_phase |].
  split; [apply poll_phase |].
  cbv zeta. unfold main_loop_body.
  rewrite fsm_phase, enable_edge_phase, poll_phase.
  assert (Hen : forall q,
            vctcxo_tamer_en_old (poll_error_status P inp q) = vctcxo_tamer_en_old q /\
            vctcxo_tamer_en (poll_error_status P inp q) = vctcxo_tamer_en q).
  { intros q. unfold poll_error_status.
    destruct (negb (vctcxo_tamer_read (poll_regs inp) (VT_STAT_ADDR P) =? 0));
      split; reflexivity. }
  destruct (Hen (poll_enable inp s)) as [-> ->].
  reflexivity.
Qed.

(** *** Trim-DAC writes *)

Lemma trim_dac_write_spec (val : Z) (d : driver) :
  let d' := vctcxo_trim_dac_write P val d in
  vctcxo_trim_dac_value d' = to_uint16 val /\
  hw_writes d' = hw_writes d ++ dac_write_pair P (to_uint16 val) /\
  vctcxo_tamer_ctrl_reg d' = vctcxo_tamer_ctrl_reg d.
Proof.
  cbv zeta. unfold vctcxo_trim_dac_write, dac_write_pair.
  driver_steps.
  rewrite dac_low_byte, dac_high_byte by apply to_uint16_range.
  rewrite <- app_assoc. repeat split.
Qed.

Lemma clamp_dac_range (v : Z) :
  0 <= CONFIG_DAC_MAX P -> 0 <= clamp_dac P v <= CONFIG_DAC_MAX P.
Proof.
  intros H. unfold clamp_dac.
  destruct (Z.gtb_spec v (CONFIG_DAC_MAX P)); [lia |].
  destruct (Z.ltb_spec v 0); lia.
Qed.

Lemma clamp_dac_min_max (v : Z) :
  0 <= CONFIG_DAC_MAX P -> clamp_dac P v = Z.max 0 (Z.min (CONFIG_DAC_MAX P) v).
Proof.
  intros H. unfold clamp_dac.
  destruct (Z.gtb_spec v (CONFIG_DAC_MAX P)); [lia |].
  destruct (Z.ltb_spec v 0); lia.
Qed.

Lemma adjust_trim_dac_effect (error : Z) (sl : F32.float) (scale : Z) (d : driver) :
  let d' := adjust_trim_dac P error sl scale d in
  vctcxo_trim_dac_value d' = to_uint16 (clamp_dac P (adjust_new_value P error sl scale d)) /\
  hw_writes d' = hw_writes d ++ dac_write_pair P (vctcxo_trim_dac_value d') /\
  vctcxo_tamer_ctrl_reg d' = vctcxo_tamer_ctrl_reg d.
Proof.
  cbv zeta. unfold adjust_trim_dac.
  set (v := to_uint16 (clamp_dac P (adjust_new_value P error sl scale d))).
  change (vctcxo_trim_dac_value (set_trim_dac_value v d)) with v.
  destruct (trim_dac_write_spec v (set_trim_dac_value v d)) as (Hv & Hw & Hc).
  cbn [set_trim_dac_value vctcxo_trim_dac_value hw_writes vctcxo_tamer_ctrl_reg]
    in Hv, Hw, Hc.
  assert (Hvv : to_uint16 v = v).
  { apply to_uint16_small. apply to_uint16_range. }
  rewrite Hvv in Hv, Hw.
  rewrite Hv. repeat split; assumption.
Qed.

Lemma lroundf_in_range (f : F32.float) (r : Z) :
  F32.nearest_away f = Some r -> is_int32 r ->
  F32.lroundf (lroundf_unspecified P) f = r.
Proof.
  unfold F32.lroundf, is_int32. intros -> [Hlo Hhi].
  apply Z.leb_le in Hlo, Hhi. rewrite Hlo, Hhi. reflexivity.
Qed.

Lemma quot_int32 (r scale : Z) :
  is_int32 r -> 1 <= scale -> is_int32 (Z.quot r scale).
Proof.
  unfold is_int32. intros Hr Hs.
  destruct (Z.le_gt_cases 0 r) as [Hpos | Hneg].
  - pose proof (Z.quot_pos r scale Hpos ltac:(lia)).
    pose proof (Z.quot_le_upper_bound r scale r ltac:(lia) ltac:(nia)). lia.
  - assert (Hq : Z.quot r scale = - Z.quot (- r) scale).
    { rewrite Z.quot_opp_l by lia. lia. }
    pose proof (Z.quot_pos (- r) scale ltac:(lia) ltac:(lia)).
    pose proof (Z.quot_le_upper_bound (- r) scale (- r) ltac:(lia) ltac:(nia)).
    lia.
Qed.

(** X18 -- For every error count, slope and scale, [adjust_trim_dac]
    leaves in the trim-DAC cache a code in [0, DacMax] and sends exactly
    that code to the DAC, low byte then high byte, without touching the
    control register.  Whenever the rounded product [round(e * slope)]
    fits a 32-bit [long] and the subtraction from the current code fits
    an [int32_t], that code is [current - round(e * slope) / scale]
    (binary32 product, rounding to nearest with ties away from zero,
    division truncating toward zero) clamped into [0, DacMax]; outside
    that domain the subtraction overflows, which C3 records. *)
Theorem adjust_trim_dac_clamped
    (error : Z) (sl : F32.float) (scale : Z) (d : driver) :
  0 <= CONFIG_DAC_MAX P <= 65535 ->
  let d' := adjust_trim_dac P error sl scale d in
  0 <= vctcxo_trim_dac_value d' <= CONFIG_DAC_MAX P /\
  hw_writes d' = hw_writes d ++ dac_write_pair P (vctcxo_trim_dac_value d') /\
  vctcxo_tamer_ctrl_reg d' = vctcxo_tamer_ctrl_reg d /\
  (forall r : Z,
     scale = 1 \/ scale = 10 \/ scale = 100 ->
     is_uint16 (vctcxo_trim_dac_value d) ->
     F32.nearest_away (F32.mul (F32.of_int error) sl) = Some r ->
     is_int32 r ->
     is_int32 (vctcxo_trim_dac_value d - Z.quot r scale) ->
     vctcxo_trim_dac_value d' =
       Z.max 0 (Z.min (CONFIG_DAC_MAX P)
                      (vctcxo_trim_dac_value d - Z.quot r scale))).
Proof.
  intros Hmax d'.
  destruct (adjust_trim_dac_effect error sl scale d) as (Hv & Hw & Hc).
  fold d' in Hv, Hw, Hc.
  assert (Hcl : forall v, to_uint16 (clamp_dac P v) = clamp_dac P v).
  { intros v. apply to_uint16_small. unfold is_uint16.
    pose proof (clamp_dac_range v ltac:(lia)). lia. }
  rewrite Hcl in Hv.
  split.
  { rewrite Hv. apply clamp_dac_range. lia. }
  split; [exact Hw |]. split; [exact Hc |].
  intros r Hs Hcur Hr Hr32 Hsub.
  rewrite Hv, clamp_dac_min_max by lia.
  unfold adjust_new_value.
  rewrite (lroundf_in_range _ r Hr Hr32).
  rewrite (to_int32_small (Z.quot r scale)) by (apply quot_int32; [assumption | lia]).
  rewrite (to_int32_small (vctcxo_trim_dac_value d))
    by (unfold is_uint16 in Hcur; unfold is_int32; lia).
  rewrite (to_int32_small _ Hsub). reflexivity.
Qed.

Lemma adjust_trim_dac_code (error : Z) (sl : F32.float) (scale : Z) (d : driver) :
  vctcxo_trim_dac_value (adjust_trim_dac P error sl scale d) =
    corrected_code P (vctcxo_trim_dac_value d) error sl scale.
Proof.
  destruct (adjust_trim_dac_effect error sl scale d) as (Hv & _ & _).
  rewrite Hv. reflexivity.
Qed.

Lemma fine_step_intro (s : main_state) (codes : list Z) (d1 : driver) :
  ready (vctcxo_tamer_pkt s) = true ->
  tune_state s = FINE_TUNE ->
  fst (fst (fine_tune P (set_ready false (vctcxo_tamer_pkt s))
                      (drv s, trimdac_cal_line s))) = d1 ->
  hw_writes d1 = hw_writes (drv s) ++ flat_map (dac_write_pair P) codes ->
  vctcxo_trim_dac_value d1 = last codes (vctcxo_trim_dac_value (drv s)) ->
  vctcxo_tamer_ctrl_reg d1 = vctcxo_tamer_ctrl_reg (drv s) ->
  fine_step_sends P s codes.
Proof.
  intros Hr Ht Hf Hw Hv Hc. unfold fine_step_sends. cbv zeta.
  unfold calibration_fsm. rewrite Hr, Ht.
  destruct (fine_tune P (set_ready false (vctcxo_tamer_pkt s))
                      (drv s, trimdac_cal_line s)) as [[d2 l1] t1] eqn:Hft.
  cbn [fst] in Hf. subst d2.
  assert (Hlt : l1 = trimdac_cal_line s /\ t1 = FINE_TUNE).
  { unfold fine_tune in Hft. injection Hft as _ Hl Hn. split; congruence. }
  destruct Hlt as [-> ->].
  cbn [drv tune_state trimdac_cal_line]. driver_steps.
  rewrite Hw, Hv, Hc. unfold ctrl_write.
  repeat rewrite <- app_assoc.
  split; [reflexivity |]. split; [reflexivity |]. split; [reflexivity |].
  split; reflexivity.
Qed.

Lemma fine_step_adjust (s : main_state) (e sc : Z) :
  ready (vctcxo_tamer_pkt s) = true ->
  tune_state s = FINE_TUNE ->
  fst (fst (fine_tune P (set_ready false (vctcxo_tamer_pkt s))
                      (drv s, trimdac_cal_line s))) =
    adjust_trim_dac P e (slope (trimdac_cal_line s)) sc (drv s) ->
  fine_step_sends P s
    [corrected_code P (vctcxo_trim_dac_value (drv s)) e
                    (slope (trimdac_cal_line s)) sc].
Proof.
  intros Hr Ht Hf.
  destruct (adjust_trim_dac_effect e (slope (trimdac_cal_line s)) sc (drv s))
    as (_ & Hw & Hc).
  pose proof (adjust_trim_dac_code e (slope (trimdac_cal_line s)) sc (drv s)) as Hv.
  apply (fine_step_intro s _ _ Hr Ht Hf).
  - rewrite Hw, Hv. cbn [flat_map]. rewrite app_nil_r. reflexivity.
  - rewrite Hv. reflexivity.
  - exact Hc.
Qed.

(** C6 (as amended) -- In the Fine phase a consumed sample has at most
    one correction applied.  If the short flag is set, the only trim code
    sent is the one computed from the short-window error at scale 1;
    otherwise, if the medium flag is set, the one computed from the
    medium-window error at scale 10; otherwise, if the long flag is set,
    the one computed from the long-window error at scale 100; and if no
    flag is set no trim code is sent and the cached code is kept.  In all
    four cases the run ends with the release of the counter reset and the
    re-enabling of the interrupt, in the Fine phase, with the line
    untouched. *)
Theorem fine_tune_priority (s : main_state) :
  ready (vctcxo_tamer_pkt s) = true ->
  tune_state s = FINE_TUNE ->
  let pkt := vctcxo_tamer_pkt s in
  let code e sc :=
    corrected_code P (vctcxo_trim_dac_value (drv s)) e
                   (slope (trimdac_cal_line s)) sc in
  (pps_1s_error_flag pkt = true ->
     fine_step_sends P s [code (pps_1s_error pkt) 1]) /\
  (pps_1s_error_flag pkt = false -> pps_10s_error_flag pkt = true ->
     fine_step_sends P s [code (pps_10s_error pkt) 10]) /\
  (pps_1s_error_flag pkt = false -> pps_10s_error_flag pkt = false ->
   pps_100s_error_flag pkt = true ->
     fine_step_sends P s [code (pps_100s_error pkt) 100]) /\
  (pps_1s_error_flag pkt = false -> pps_10s_error_flag pkt = false ->
   pps_100s_error_flag pkt = false ->
     fine_step_sends P s []).
Proof.
  intros Hr Ht pkt code. subst pkt code.
  split; [| split; [| split]].
  - intros H1. apply fine_step_adjust; try assumption.
    unfold fine_tune, set_ready. cbn [pps_1s_error_flag pps_1s_error fst].
    rewrite H1. reflexivity.
  - intros H1 H10. apply fine_step_adjust; try assumption.
    unfold fine_tune, set_ready.
    cbn [pps_1s_error_flag pps_10s_error_flag pps_10s_error fst].
    rewrite H1, H10. reflexivity.
  - intros H1 H10 H100. apply fine_step_adjust; try assumption.
    unfold fine_tune, set_ready.
    cbn [pps_1s_error_flag pps_10s_error_flag pps_100s_error_flag
         pps_100s_error fst].
    rewrite H1, H10, H100. reflexivity.
  - intros H1 H10 H100.
    apply (fine_step_intro s [] (drv s) Hr Ht).
    + unfold fine_tune, set_ready.
      cbn [pps_1s_error_flag pps_10s_error_flag pps_100s_error_flag fst].
      rewrite H1, H10, H100. reflexivity.
    + cbn [flat_map]. rewrite app_nil_r. reflexivity.
    + reflexivity.
    + reflexivity.
Qed.

(** C10 -- In the Fine phase a consumed sample with none of the three
    window flags set causes no trim-DAC write: the trim-DAC cache is
    unchanged, the phase stays Fine, and the only register writes of the
    iteration are the release of the counter reset and the re-enabling of
    the interrupt, both to the control register. *)
Theorem fine_tune_no_flag (s : main_state) :
  ready (vctcxo_tamer_pkt s) = true ->
  tune_state s = FINE_TUNE ->
  pps_1s_error_flag (vctcxo_tamer_pkt s) = false ->
  pps_10s_error_flag (vctcxo_tamer_pkt s) = false ->
  pps_100s_error_flag (vctcxo_tamer_pkt s) = false ->
  let s' := calibration_fsm P s in
  let c1 := clear_bits8 (vctcxo_tamer_ctrl_reg (drv s)) VT_CTRL_RESET in
  let c2 := set_bits8 c1 VT_CTRL_IRQ_EN in
  vctcxo_trim_dac_value (drv s') = vctcxo_trim_dac_value (drv s) /\
  hw_writes (drv s') = hw_writes (drv s) ++ [ctrl_write P c1; ctrl_write P c2] /\
  vctcxo_tamer_ctrl_reg (drv s') = c2 /\
  Z.testbit c2 0 = false /\
  Z.testbit c2 1 = true /\
  tune_state s' = FINE_TUNE /\
  trimdac_cal_line s' = trimdac_cal_line s.
Proof.
  intros Hr Ht H1 H10 H100. cbv zeta.
  unfold calibration_fsm. rewrite Hr, Ht.
  unfold fine_tune, set_ready.
  cbn [pps_1s_error_flag pps_10s_error_flag pps_100s_error_flag].
  rewrite H1, H10, H100.
  cbn [drv tune_state trimdac_cal_line]. driver_steps.
  rewrite <- app_assoc.
  split; [reflexivity |]. split; [reflexivity |]. split; [reflexivity |].
  set (c := vctcxo_tamer_ctrl_reg (drv s)).
  destruct (update_bit8 c 0 false ltac:(lia)) as [Hb0 _].
  destruct (update_bit8 (clear_bits8 c VT_CTRL_RESET) 1 true ltac:(lia))
    as [Hb1 Hrest].
  cbv zeta in Hb0, Hb1, Hrest.
  split.
  { change VT_CTRL_IRQ_EN with (2 ^ 1). rewrite Hrest by lia. exact Hb0. }
  split; [exact Hb1 |]. split; reflexivity.
Qed.

(** C1 (as amended) -- For two recorded points whose error difference
    [point1.x - point0.x] fits 32 bits: if the difference is not zero,
    [slope] is the binary32 quotient of [point1.y - point0.y] by it, and
    [y_intercept] is [point0.y - round(slope * point0.x)] whenever that
    value is a trim code (lies in [0, 65535]); if the difference is zero,
    the slope is left as it was and [y_intercept] is the default code
    0x77FA whatever the y-values.  The points are not modified. *)
Theorem cal_line_two_points (l : line_t) :
  let x0 := x (point0 l) in
  let y0 := y (point0 l) in
  let x1 := x (point1 l) in
  let y1 := y (point1 l) in
  is_int32 (x1 - x0) ->
  is_uint16 y0 ->
  let l' := cal_line P l in
  (x1 - x0 <> 0 ->
     slope l' = F32.div (F32.of_int (y1 - y0)) (F32.of_int (x1 - x0)) /\
     forall r : Z,
       F32.nearest_away (F32.mul (slope l') (F32.of_int x0)) = Some r ->
       is_uint16 (y0 - r) ->
       y_intercept l' = y0 - r) /\
  (x1 - x0 = 0 ->
     slope l' = slope l /\ y_intercept l' = VCTCXO_DEFAULT_DAC_VALUE) /\
  point0 l' = point0 l /\
  point1 l' = point1 l.
Proof.
  intros x0 y0 x1 y1 Hdx Hy0 l'.
  subst l'. unfold cal_line. fold x0 x1.
  rewrite (to_int32_small _ Hdx).
  destruct (Z.eqb_spec (x1 - x0) 0) as [Hz | Hnz]; cbn [negb].
  - split; [intros Hne; contradiction |].
    split; [intros _; split; reflexivity |]. split; reflexivity.
  - split.
    + intros _. cbn [set_y_intercept set_slope slope y_intercept point0 point1].
      fold y0 y1 x0. split; [reflexivity |].
      intros r Hr Hyr.
      assert (Hr32 : is_int32 r).
      { unfold is_uint16 in Hy0, Hyr. unfold is_int32. lia. }
      rewrite (lroundf_in_range _ r Hr Hr32).
      unfold to_uint16 at 1 2. rewrite Zminus_mod_idemp_r.
      apply Z.mod_small. unfold is_uint16 in Hyr. lia.
    + split; [intros Hz; contradiction |]. split; reflexivity.
Qed.

End MainProps.

(* ================================================================== *)
(** ** Concrete runs *)

(** The documented scenarios (DacMax = 65535), run on the model. *)

Example enable_edge_runs_coarse_min :
  let s := main_loop_body sample_platform (LoopInput 1 idle_bank idle_bank)
             (main_init sample_platform) in
  tune_state s = COARSE_TUNE_MAX /\ vctcxo_trim_dac_value (drv s) = 0.
Proof. vm_compute. split; reflexivity. Qed.

Example opposite_sign_intercept :
  y_intercept (cal_line sample_platform scenario_line) = 43690.
Proof. vm_compute. reflexivity. Qed.

Example fine_step_in_range :
  vctcxo_trim_dac_value
    (adjust_trim_dac sample_platform 10 scenario_slope 1 (Driver 0 43690 []))
  = 48059.
Proof. vm_compute. reflexivity. Qed.

Example fine_step_clamped_high :
  vctcxo_trim_dac_value
    (adjust_trim_dac sample_platform 1000 scenario_slope 1 (Driver 0 43690 []))
  = 65535.
Proof. vm_compute. reflexivity. Qed.

Example fine_step_clamped_low :
  vctcxo_trim_dac_value
    (adjust_trim_dac sample_platform (-1000) scenario_slope 1 (Driver 0 43690 []))
  = 0.
Proof. vm_compute. reflexivity. Qed.

Example read_count_negative :
  vctcxo_tamer_read_count
    (fun addr => if addr =? 4 then 0xCE else 0xFF) 4 = -50.
Proof. vm_compute. reflexivity. Qed.

(** C3 (evaluation at the failing input) -- After the coarse calibration
    on errors of 100 and -50 counts (slope -436.9, trim code 43690), a
    Fine-phase sample with a short-window error of 4915200 counts: the
    rounded product is -2147450880, which fits a [long]; the difference
    43690 + 2147450880 = 2147494570 exceeds the largest [int32_t], so
    [new_value] wraps to a negative number and the code sent to the DAC
    is 0, where the clamped difference is 65535. *)
Theorem fine_step_wraps_at_int32_limit :
  let before := main_loop sample_platform (firstn 3 large_error_run)
                          (main_init sample_platform) in
  let after := main_loop sample_platform large_error_run
                         (main_init sample_platform) in
  tune_state before = FINE_TUNE /\
  vctcxo_trim_dac_value (drv before) = 43690 /\
  slope (trimdac_cal_line before) = scenario_slope /\
  pps_1s_error (vctcxo_tamer_pkt after) = 4915200 /\
  pps_1s_error_flag (vctcxo_tamer_pkt after) = true /\
  F32.nearest_away (F32.mul (F32.of_int 4915200) scenario_slope)
    = Some (-2147450880) /\
  is_int32 (-2147450880) /\
  43690 - Z.quot (-2147450880) 1 = 2147494570 /\
  ~ is_int32 2147494570 /\
  adjust_new_value sample_platform 4915200 scenario_slope 1 (drv before)
    = -2147472726 /\
  vctcxo_trim_dac_value (drv after) = 0 /\
  (exists earlier,
     hw_writes (drv after) =
       earlier ++ [(VT_DAC_TUNNED_VAL_ADDR0 sample_platform, 0x00);
                   (VT_DAC_TUNNED_VAL_ADDR1 sample_platform, 0x00)]
               ++ [(VT_CTRL_ADDR sample_platform, 0x40);
                   (VT_CTRL_ADDR sample_platform, 0x42)]) /\
  clamp_dac sample_platform 2147494570 = 65535.
Proof.
  cbv zeta.
  repeat (split; [vm_compute; reflexivity |]).
  split. { unfold is_int32. lia. }
  split. { reflexivity. }
  split. { unfold is_int32. lia. }
  split. { vm_compute. reflexivity. }
  split. { vm_compute. reflexivity. }
  split; [| vm_compute; reflexivity].
  exists (firstn 32 (hw_writes (drv (main_loop sample_platform large_error_run
                                       (main_init sample_platform))))).
  vm_compute. reflexivity.
Qed.

(** C6 (as stated) fails: a consumed Fine-phase sample with no flag set
    has no correction applied, the only register writes of the run being
    the two control bytes. *)
Lemma fine_tune_not_always_one :
  ~ (forall (Q : platform) (s : main_state),
       ready (vctcxo_tamer_pkt s) = true ->
       tune_state s = FINE_TUNE ->
       exists code : Z, fine_step_sends Q s [code]).
Proof.
  intros H.
  destruct (H sample_platform fine_state_no_flag eq_refl eq_refl)
    as (code & Hw & _).
  apply (f_equal (@length reg_write)) in Hw.
  vm_compute in Hw. discriminate Hw.
Qed.

(** C2 (evaluation at the failing input) -- After enabling, an error of
    100 counts at the minimum code and of 60 counts at the maximum code:
    the y-intercept of the line is 163838, above the DAC range; the
    CoarseDone step stores and sends 32766 (bytes 0xFE, 0x7F), the value
    wrapped modulo 2^16, where clamping gives 65535. *)
Theorem coarse_done_sends_wrapped_code :
  let s := main_loop sample_platform same_sign_run (main_init sample_platform) in
  let l := trimdac_cal_line s in
  tune_state s = FINE_TUNE /\
  point0 l = Point 100 0 /\
  point1 l = Point 60 65535 /\
  F32.nearest_away (F32.mul (slope l) (F32.of_int 100)) = Some (-163838) /\
  y_intercept l = 32766 /\
  vctcxo_trim_dac_value (drv s) = 32766 /\
  (exists earlier,
     hw_writes (drv s) =
       earlier ++ [(VT_STATE_ADDR sample_platform, 1)]
               ++ [(VT_DAC_TUNNED_VAL_ADDR0 sample_platform, 0xFE);
                   (VT_DAC_TUNNED_VAL_ADDR1 sample_platform, 0x7F)]
               ++ [(VT_CTRL_ADDR sample_platform, 0x40);
                   (VT_CTRL_ADDR sample_platform, 0x42)]) /\
  clamp_dac sample_platform (0 - (-163838)) = 65535.
Proof.
  cbv zeta.
  repeat (split; [vm_compute; reflexivity |]).
  split; [| vm_compute; reflexivity].
  exists (firstn 24 (hw_writes (drv (main_loop sample_platform same_sign_run
                                       (main_init sample_platform))))).
  vm_compute. reflexivity.
Qed.

(** C9 (as stated) fails for [vctcxo_tamer_clear_isr]: from a zeroed cache
    it sends 0x04 and the cache stays 0x00. *)
Lemma clear_isr_cache_differs :
  ~ (forall (Q : platform) (d : driver),
       cache_is_last_written Q (vctcxo_tamer_clear_isr Q d)).
Proof.
  intros H. specialize (H sample_platform (Driver 0 0 [])).
  vm_compute in H. discriminate H.
Qed.

(** C1 (as stated) fails: for the points (100, 0) and (60, 65535) the
    rounded product is -163838, so [point0.y - round(slope * point0.x)] is
    163838, and the stored [y_intercept] is 32766. *)
Lemma cal_line_intercept_wraps :
  ~ (forall (Q : platform) (l : line_t) (r : Z),
       is_int32 (x (point0 l)) -> is_int32 (x (point1 l)) ->
       is_uint16 (y (point0 l)) -> is_uint16 (y (point1 l)) ->
       x (point1 l) - x (point0 l) <> 0 ->
       F32.nearest_away
         (F32.mul (slope (cal_line Q l)) (F32.of_int (x (point0 l)))) = Some r ->
       y_intercept (cal_line Q l) = y (point0 l) - r).
Proof.
  intros H.
  specialize (H sample_platform
                (Line (Point 100 0) (Point 60 65535) (S754_zero false) 0)
                (-163838)).
  cbn [x y point0 point1] in H.
  assert (Habs : y_intercept (cal_line sample_platform
                   (Line (Point 100 0) (Point 60 65535) (S754_zero false) 0))
                 = 0 - -163838).
  { apply H; try (unfold is_int32, is_uint16; lia).
    vm_compute. reflexivity. }
  vm_compute in Habs. discriminate Habs.
Qed.

(** The clamped formula is not what [adjust_trim_dac] computes at the
    [int32_t] limit: with the code at 65535, an error of 32768 counts and
    a slope of -65535, the rounded product -2147450880 fits a [long], the
    difference 2147516415 does not fit an [int32_t], and the code written
    is 0 where the clamped difference is 65535. *)
Lemma adjust_trim_dac_overflows :
  ~ (forall (Q : platform) (error : Z) (sl : F32.float) (scale : Z)
            (d : driver) (r : Z),
       0 <= CONFIG_DAC_MAX Q <= 65535 ->
       is_int32 error ->
       scale = 1 \/ scale = 10 \/ scale = 100 ->
       is_uint16 (vctcxo_trim_dac_value d) ->
       F32.nearest_away (F32.mul (F32.of_int error) sl) = Some r ->
       vctcxo_trim_dac_value (adjust_trim_dac Q error sl scale d) =
         Z.max 0 (Z.min (CONFIG_DAC_MAX Q)
                        (vctcxo_trim_dac_value d - Z.quot r scale))).
Proof.
  intros H.
  specialize (H sample_platform 32768 (F32.of_int (-65535)) 1
                (Driver 0 65535 []) (-2147450880)).
  assert (Habs : vctcxo_trim_dac_value
                   (adjust_trim_dac sample_platform 32768 (F32.of_int (-65535)) 1
                                    (Driver 0 65535 []))
                 = Z.max 0 (Z.min (CONFIG_DAC_MAX sample_platform)
                                  (65535 - Z.quot (-2147450880) 1))).
  { apply H; try (cbn; unfold is_int32, is_uint16; lia).
    vm_compute. reflexivity. }
  vm_compute in Habs. discriminate Habs.
Qed.

(** *** The theorems at concrete inputs *)

Lemma cal_line_two_points_witness :
  is_int32 (-50 - 100) /\ is_uint16 0 /\
  slope (cal_line sample_platform scenario_line) = scenario_slope /\
  y_intercept (cal_line sample_platform scenario_line) = 43690.
Proof.
  assert (Hdx : is_int32 (-50 - 100)) by (unfold is_int32; lia).
  assert (Hy0 : is_uint16 0) by (unfold is_uint16; lia).
  split; [exact Hdx |]. split; [exact Hy0 |].
  destruct (cal_line_two_points sample_platform scenario_line Hdx Hy0)
    as [Hline _].
  destruct (Hline ltac:(discriminate)) as [Hslope Hy].
  split; [exact Hslope |].
  apply (Hy (-43690)); [vm_compute; reflexivity | unfold is_uint16; cbn; lia].
Defined.

Lemma adjust_trim_dac_clamped_witness :
  0 <= CONFIG_DAC_MAX sample_platform <= 65535 /\
  vctcxo_trim_dac_value
    (adjust_trim_dac sample_platform 10 scenario_slope 1 (Driver 0 43690 []))
  = 48059.
Proof.
  assert (Hmax : 0 <= CONFIG_DAC_MAX sample_platform <= 65535) by (cbn; lia).
  split; [exact Hmax |].
  destruct (adjust_trim_dac_clamped sample_platform 10 scenario_slope 1
              (Driver 0 43690 []) Hmax) as (_ & _ & _ & Hformula).
  rewrite (Hformula (-4369)).
  - reflexivity.
  - left. reflexivity.
  - cbn. unfold is_uint16. lia.
  - vm_compute. reflexivity.
  - unfold is_int32. lia.
  - cbn. unfold is_int32. lia.
Defined.

Lemma fine_tune_priority_witness :
  ready (vctcxo_tamer_pkt fine_state_priority) = true /\
  tune_state fine_state_priority = FINE_TUNE /\
  fine_step_sends sample_platform fine_state_priority [44563] /\
  corrected_code sample_platform 43690 7 scenario_slope 1 = 46748 /\
  corrected_code sample_platform 43690 300 scenario_slope 100 = 45000.
Proof.
  split; [reflexivity |]. split; [reflexivity |].
  destruct (fine_tune_priority sample_platform fine_state_priority
              eq_refl eq_refl) as (_ & Hmedium & _).
  split; [exact (Hmedium eq_refl eq_refl) |].
  split; vm_compute; reflexivity.
Defined.

Lemma fine_tune_no_flag_witness :
  ready (vctcxo_tamer_pkt fine_state_no_flag) = true /\
  tune_state fine_state_no_flag = FINE_TUNE /\
  vctcxo_trim_dac_value (drv (calibration_fsm sample_platform fine_state_no_flag))
    = 43690 /\
  hw_writes (drv (calibration_fsm sample_platform fine_state_no_flag))
    = [(0, 0x40); (0, 0x42)].
Proof.
  split; [reflexivity |]. split; [reflexivity |].
  destruct (fine_tune_no_flag sample_platform fine_state_no_flag
              eq_refl eq_refl eq_refl eq_refl eq_refl)
    as (Hdac & Hwrites & _).
  split; [exact Hdac | exact Hwrites].
Defined.

Lemma set_tune_mode_invalid_noop_witness :
  3 <> VCTCXO_TAMER_DISABLED /\ 3 <> VCTCXO_TAMER_1_PPS /\
  3 <> VCTCXO_TAMER_10_MHZ /\
  vctcxo_tamer_set_tune_mode sample_platform 3 (Driver 0x42 43690 [])
    = Driver 0x42 43690 [].
Proof.
  assert (H0 : 3 <> VCTCXO_TAMER_DISABLED) by discriminate.
  assert (H1 : 3 <> VCTCXO_TAMER_1_PPS) by discriminate.
  assert (H2 : 3 <> VCTCXO_TAMER_10_MHZ) by discriminate.
  repeat (split; [assumption |]).
  exact (set_tune_mode_invalid_noop sample_platform 3 (Driver 0x42 43690 [])
           H0 H1 H2).
Defined.

Lemma set_tune_mode_sequence_witness :
  exists c1 c2 c3 c4 c5 : Z,
    hw_writes (vctcxo_tamer_set_tune_mode sample_platform VCTCXO_TAMER_1_PPS
                 (Driver 0x03 0 []))
      = map (ctrl_write sample_platform) [c1; c2; c3; c4; c5] /\
    Z.testbit c1 1 = false /\ Z.testbit c2 6 = true /\ Z.testbit c2 7 = false /\
    Z.testbit c3 0 = true /\ Z.testbit c4 0 = false /\ Z.testbit c5 1 = true.
Proof.
  destruct (set_tune_mode_sequence sample_platform VCTCXO_TAMER_1_PPS
              (Driver 0x03 0 []) (or_intror (or_introl eq_refl)))
    as (c1 & c2 & c3 & c4 & c5 & Hw & _ & (H1 & _) & (H26 & H27 & _)
        & (H3 & _) & (H4 & _) & (H5 & _)).
  exists c1, c2, c3, c4, c5.
  split; [exact Hw |].
  repeat (split; [assumption |]). assumption.
Defined.

Lemma ctrl_shadow_rewrite_witness :
  cache_is_last_written sample_platform
    (vctcxo_tamer_reset_counters sample_platform true (Driver 0x42 0 [])) /\
  cache_is_last_written sample_platform
    (vctcxo_tamer_enable_isr sample_platform false (Driver 0x42 0 [])) /\
  vctcxo_tamer_ctrl_reg (vctcxo_tamer_clear_isr sample_platform (Driver 0x42 0 []))
    = 0x42.
Proof.
  split; [| split].
  - destruct (ctrl_shadow_rewrite sample_platform (Driver 0x42 0 []) true)
      as ((_ & H & _) & _). exact H.
  - destruct (ctrl_shadow_rewrite sample_platform (Driver 0x42 0 []) false)
      as (_ & (_ & H & _) & _). exact H.
  - destruct (ctrl_shadow_rewrite sample_platform (Driver 0x42 0 []) true)
      as (_ & _ & (H & _)). exact H.
Defined.

(* ================================================================== *)
(** ** Decoding the error counters *)

Lemma lor_shiftl_add (a b n : Z) :
  0 <= n -> 0 <= a < 2 ^ n -> Z.lor a (Z.shiftl b n) = a + b * 2 ^ n.
Proof.
  intros Hn Ha.
  assert (Hdisj : Z.land a (Z.shiftl b n) = 0).
  { apply Z.bits_inj'. intros m Hm.
    rewrite Z.land_spec, Z.bits_0.
    destruct (Z.lt_ge_cases m n) as [Hlt | Hge].
    - rewrite Z.shiftl_spec_low by exact Hlt. apply andb_false_r.
    - rewrite <- (Z.mod_small a (2 ^ n)) by exact Ha.
      rewrite Z.mod_pow2_bits_high by lia. reflexivity. }
  rewrite <- Z.lxor_lor by exact Hdisj.
  rewrite <- Z.add_nocarry_lxor by exact Hdisj.
  rewrite Z.shiftl_mul_pow2 by exact Hn. reflexivity.
Qed.

Lemma read_byte_range (regs : reg_bank) (addr : Z) :
  0 <= vctcxo_tamer_read regs addr < 256.
Proof.
  unfold vctcxo_tamer_read, to_uint8. change (2 ^ 8) with 256.
  apply Z.mod_pos_bound. lia.
Qed.

Lemma to_int32_unsigned (u : Z) :
  0 <= u < 2 ^ 32 -> to_int32 u = if u <? 2 ^ 31 then u else u - 2 ^ 32.
Proof.
  intros Hu. unfold to_int32.
  destruct (Z.ltb_spec u (2 ^ 31)) as [Hlt | Hge].
  - rewrite Z.mod_small; lia.
  - replace (u + 2 ^ 31) with (u - 2 ^ 31 + 1 * 2 ^ 32) by lia.
    rewrite Z.mod_add by lia. rewrite Z.mod_small; lia.
Qed.

Lemma count_bytes_value_range (regs : reg_bank) (addr : Z) :
  0 <= count_bytes_value regs addr < 2 ^ 32.
Proof.
  unfold count_bytes_value.
  pose proof (read_byte_range regs (to_uint8 (addr + 0))).
  pose proof (read_byte_range regs (to_uint8 (addr + 1))).
  pose proof (read_byte_range regs (to_uint8 (addr + 2))).
  pose proof (read_byte_range regs (to_uint8 (addr + 3))).
  lia.
Qed.

Lemma read_count_unsigned (regs : reg_bank) (addr : Z) :
  vctcxo_tamer_read_count regs addr = to_int32 (count_bytes_value regs addr).
Proof.
  unfold vctcxo_tamer_read_count, count_bytes_value.
  assert (Hoff : forall k, to_uint8 (to_uint8 addr + k) = to_uint8 (addr + k)).
  { intros k. unfold to_uint8. rewrite Zplus_mod_idemp_l. reflexivity. }
  rewrite !Hoff. rewrite (Z.add_0_r addr).
  pose proof (read_byte_range regs (to_uint8 addr)).
  pose proof (read_byte_range regs (to_uint8 (addr + 1))).
  pose proof (read_byte_range regs (to_uint8 (addr + 2))).
  pose proof (read_byte_range regs (to_uint8 (addr + 3))).
  rewrite Z.shiftl_0_r.
  rewrite (lor_shiftl_add _ _ 8) by lia.
  rewrite (lor_shiftl_add _ _ 16) by lia.
  rewrite (lor_shiftl_add _ _ 24) by lia.
  reflexivity.
Qed.

(** X1 -- [vctcxo_tamer_read_count] returns the 32-bit two's complement
    value of the four bytes read at [addr], [addr + 1], [addr + 2],
    [addr + 3] (the address being a [uint8_t], it wraps modulo 256),
    least significant byte first; the result is always a signed 32-bit
    value. *)
Theorem read_count_little_endian (regs : reg_bank) (addr : Z) :
  let u := count_bytes_value regs addr in
  vctcxo_tamer_read_count regs addr = (if u <? 2 ^ 31 then u else u - 2 ^ 32) /\
  is_int32 (vctcxo_tamer_read_count regs addr).
Proof.
  intros u.
  pose proof (count_bytes_value_range regs addr) as Hu. fold u in Hu.
  rewrite read_count_unsigned. fold u. rewrite (to_int32_unsigned u Hu).
  split; [reflexivity |].
  unfold is_int32. destruct (Z.ltb_spec u (2 ^ 31)); lia.
Qed.

Lemma int32_bytes (v : Z) :
  v mod 256 + (v / 2 ^ 8) mod 256 * 2 ^ 8 + (v / 2 ^ 16) mod 256 * 2 ^ 16
  + (v / 2 ^ 24) mod 256 * 2 ^ 24 = v mod 2 ^ 32.
Proof.
  change (2 ^ 16) with (2 ^ 8 * 2 ^ 8).
  change (2 ^ 24) with (2 ^ 8 * 2 ^ 8 * 2 ^ 8).
  change (2 ^ 32) with (2 ^ 8 * 2 ^ 8 * 2 ^ 8 * 2 ^ 8).
  change (2 ^ 8) with 256.
  rewrite <- !Z.div_div by lia.
  set (q1 := v / 256). set (q2 := q1 / 256). set (q3 := q2 / 256).
  pose proof (Z.div_mod v 256 ltac:(lia)) as E0. fold q1 in E0.
  pose proof (Z.div_mod q1 256 ltac:(lia)) as E1. fold q2 in E1.
  pose proof (Z.div_mod q2 256 ltac:(lia)) as E2. fold q3 in E2.
  pose proof (Z.div_mod q3 256 ltac:(lia)) as E3.
  pose proof (Z.mod_pos_bound v 256 ltac:(lia)).
  pose proof (Z.mod_pos_bound q1 256 ltac:(lia)).
  pose proof (Z.mod_pos_bound q2 256 ltac:(lia)).
  pose proof (Z.mod_pos_bound q3 256 ltac:(lia)).
  apply Z.mod_unique with (q := q3 / 256); lia.
Qed.

(** X2 -- Round trip: when the registers at [addr .. addr + 3] hold the
    little-endian two's complement bytes of a signed 32-bit value [v],
    [vctcxo_tamer_read_count] returns [v]. *)
Theorem read_count_round_trip (regs : reg_bank) (addr v : Z) :
  is_int32 v ->
  (forall k, 0 <= k < 4 ->
     regs (to_uint8 (addr + k)) = (v / 2 ^ (8 * k)) mod 256) ->
  vctcxo_tamer_read_count regs addr = v.
Proof.
  intros Hv Hregs.
  assert (Hb : forall k, 0 <= k < 4 ->
            vctcxo_tamer_read regs (to_uint8 (addr + k)) = (v / 2 ^ (8 * k)) mod 256).
  { intros k Hk. unfold vctcxo_tamer_read.
    replace (to_uint8 (to_uint8 (addr + k))) with (to_uint8 (addr + k))
      by (unfold to_uint8; rewrite Z.mod_mod by lia; reflexivity).
    rewrite (Hregs k Hk). unfold to_uint8. change (2 ^ 8) with 256.
    apply Z.mod_mod. lia. }
  rewrite read_count_unsigned. unfold count_bytes_value.
  rewrite (Hb 0), (Hb 1), (Hb 2), (Hb 3) by lia.
  change (8 * 0) with 0. change (8 * 1) with 8.
  change (8 * 2) with 16. change (8 * 3) with 24.
  rewrite Z.pow_0_r, Z.div_1_r. rewrite int32_bytes.
  unfold to_int32, is_int32 in *.
  rewrite Zplus_mod_idemp_l. rewrite Z.mod_small; lia.
Qed.

(** Rewrites the bits of a byte built by the driver down to the bits of
    the cached byte it started from. *)
Ltac bits8 :=
  repeat first
    [ rewrite testbit_set_bits8 by lia
    | rewrite testbit_clear_bits8 by lia
    | rewrite testbit_to_uint8 by lia
    | rewrite Z.lor_spec
    | rewrite Z.land_spec ].

Ltac bit_cases n H :=
  let E := fresh "E" in
  first [ assert (E : n = 2 \/ n = 3 \/ n = 4 \/ n = 5) by lia
        | assert (E : n = 2 \/ n = 3 \/ n = 4 \/ n = 5 \/ n = 6 \/ n = 7) by lia ];
  clear H; repeat (destruct E as [E | E]; [subst n | ]); try subst n.

Ltac tune_mode_steps :=
  unfold vctcxo_tamer_set_tune_mode;
  cbn [valid_mode Z.eqb orb negb VCTCXO_TAMER_DISABLED VCTCXO_TAMER_1_PPS
       VCTCXO_TAMER_10_MHZ Pos.eqb];
  driver_steps.

Ltac by_bit c :=
  bits8;
  try match goal with
      | |- context [Z.testbit c ?k] => destruct (Z.testbit c k)
      end;
  reflexivity.

Ltac main_fields :=
  cbn [drv tune_state trimdac_cal_line vctcxo_tamer_pkt vctcxo_tamer_en
       vctcxo_tamer_en_old].

Ltac enum_ctrl H :=
  unfold ctrl_values in H; cbn [In] in H;
  repeat (destruct H as [H | H]; [rewrite <- H; vm_compute; auto 10 |]);
  contradiction.

(* ================================================================== *)
(** ** Further properties of the driver *)

Section DriverExtra.

Context (P : platform).

(** X3 -- [vctcxo_trim_dac_write] caches the code reduced modulo 2^16 and
    sends exactly two bytes, the low one to the first DAC register and
    then the high one to the second; the two bytes recombine to the cached
    code, and the cached control register is not touched. *)
Theorem trim_dac_write_bytes (val : Z) (d : driver) :
  let d' := vctcxo_trim_dac_write P val d in
  exists lo hi : Z,
    hw_writes d' =
      hw_writes d ++ [(VT_DAC_TUNNED_VAL_ADDR0 P, lo); (VT_DAC_TUNNED_VAL_ADDR1 P, hi)] /\
    0 <= lo < 256 /\ 0 <= hi < 256 /\
    lo + 256 * hi = vctcxo_trim_dac_value d' /\
    vctcxo_trim_dac_value d' = val mod 65536 /\
    vctcxo_tamer_ctrl_reg d' = vctcxo_tamer_ctrl_reg d.
Proof.
  intros d'.
  destruct (trim_dac_write_spec P val d) as (Hv & Hw & Hc). fold d' in Hv, Hw, Hc.
  pose proof (to_uint16_range val) as Hr.
  exists (to_uint16 val mod 256), (to_uint16 val / 256).
  split; [exact Hw |].
  split; [apply Z.mod_pos_bound; lia |].
  split; [split; [apply Z.div_pos; lia | apply Z.div_lt_upper_bound; lia] |].
  split; [rewrite Hv; pose proof (Z.div_mod (to_uint16 val) 256 ltac:(lia)); lia |].
  split; [exact Hv | exact Hc].
Qed.

Lemma to_uint8_bounds (z : Z) : 0 <= to_uint8 z < 256.
Proof. unfold to_uint8. change (2 ^ 8) with 256. apply Z.mod_pos_bound. lia. Qed.

(** X4 -- On the driver, the interrupt handler sends three bytes to the
    control register, whatever the registers it reads hold: the cached
    byte with interrupt-enable cleared and its other bits kept, that byte
    with the reset bit set (which is the cache afterwards), and the same
    with the interrupt-clear bit set (not cached).  The cached trim code
    is unchanged. *)
Theorem isr_driver_effect (regs : reg_bank) (d : driver) (pkt : vctcxo_tamer_pkt_buf) :
  let d' := fst (vctcxo_tamer_isr P regs (d, pkt)) in
  let c := vctcxo_tamer_ctrl_reg d in
  let c' := vctcxo_tamer_ctrl_reg d' in
  exists b1 b3 : Z,
    hw_writes d' = hw_writes d ++ map (ctrl_write P) [b1; c'; b3] /\
    (* first byte: the cache with interrupt-enable cleared *)
    (0 <= b1 < 256 /\
     Z.testbit b1 1 = false /\
     forall n, 0 <= n < 8 -> n <> 1 -> Z.testbit b1 n = Z.testbit c n) /\
    (* second byte, cached: the first with the reset bit set *)
    (0 <= c' < 256 /\
     Z.testbit c' 0 = true /\
     (forall n, 0 <= n < 8 -> n <> 0 -> Z.testbit c' n = Z.testbit b1 n) /\
     Z.testbit c' 1 = false /\
     forall n, 2 <= n < 8 -> Z.testbit c' n = Z.testbit c n) /\
    (* third byte, not cached: the second with interrupt-clear set *)
    (0 <= b3 < 256 /\
     Z.testbit b3 2 = true /\
     forall n, 0 <= n < 8 -> n <> 2 -> Z.testbit b3 n = Z.testbit c' n) /\
    vctcxo_trim_dac_value d' = vctcxo_trim_dac_value d.
Proof.
  cbv zeta. unfold vctcxo_tamer_isr. cbn [fst].
  unfold vctcxo_tamer_clear_isr. driver_steps.
  set (c := vctcxo_tamer_ctrl_reg d).
  set (b1 := clear_bits8 c VT_CTRL_IRQ_EN).
  set (c' := set_bits8 b1 VT_CTRL_RESET).
  exists b1, (to_uint8 (Z.lor c' VT_CTRL_IRQ_CLR)).
  destruct (update_bit8 c 1 false ltac:(lia)) as [Hb1 Hb1'].
  destruct (update_bit8 b1 0 true ltac:(lia)) as [Hc0 Hc0'].
  destruct (update_bit8 c' 2 true ltac:(lia)) as [Hb3 Hb3'].
  cbv zeta in Hb1, Hb1', Hc0, Hc0', Hb3, Hb3'.
  change (2 ^ 1) with VT_CTRL_IRQ_EN in Hb1, Hb1'.
  change (2 ^ 0) with VT_CTRL_RESET in Hc0, Hc0'.
  change (set_bits8 c' (2 ^ 2)) with (to_uint8 (Z.lor c' VT_CTRL_IRQ_CLR)) in Hb3, Hb3'.
  fold b1 in Hb1, Hb1'. fold c' in Hc0, Hc0'.
  split. { unfold ctrl_write. cbn [map]. repeat rewrite <- app_assoc. reflexivity. }
  split. { split; [apply to_uint8_bounds |]. split; assumption. }
  split.
  { split; [apply to_uint8_bounds |]. split; [exact Hc0 |].
    split; [exact Hc0' |].
    split.
    - rewrite Hc0' by lia. exact Hb1.
    - intros n Hn. rewrite Hc0' by lia. apply Hb1'; lia. }
  split. { split; [apply to_uint8_bounds |]. split; assumption. }
  reflexivity.
Qed.

(** X5 -- After [vctcxo_tamer_set_tune_mode] with a valid mode the cached
    control byte has the mode in bits 6-7; for Disabled the counters are
    left in reset and the interrupt disabled, for the two other modes the
    reset is released and the interrupt enabled; bits 2-5 and the cached
    trim code are unchanged. *)
Theorem set_tune_mode_final_state (mode : Z) (d : driver) :
  mode = VCTCXO_TAMER_DISABLED \/ mode = VCTCXO_TAMER_1_PPS \/
  mode = VCTCXO_TAMER_10_MHZ ->
  let d' := vctcxo_tamer_set_tune_mode P mode d in
  let c := vctcxo_tamer_ctrl_reg d in
  let c' := vctcxo_tamer_ctrl_reg d' in
  Z.testbit c' 0 = (mode =? VCTCXO_TAMER_DISABLED) /\
  Z.testbit c' 1 = negb (mode =? VCTCXO_TAMER_DISABLED) /\
  Z.testbit c' 6 = Z.testbit mode 0 /\
  Z.testbit c' 7 = Z.testbit mode 1 /\
  (forall n, 2 <= n < 6 -> Z.testbit c' n = Z.testbit c n) /\
  vctcxo_trim_dac_value d' = vctcxo_trim_dac_value d.
Proof.
  intros Hm. cbv zeta. set (c := vctcxo_tamer_ctrl_reg d).
  destruct Hm as [-> | [-> | ->]]; tune_mode_steps; fold c;
    (split; [by_bit c |]); (split; [by_bit c |]); (split; [by_bit c |]);
    (split; [by_bit c |]); (split; [| reflexivity]);
    intros n Hn; bit_cases n Hn; by_bit c.
Qed.

(** X6 -- [vctcxo_tamer_init] writes 0 to the state register first and
    then five bytes to the control register; it leaves the cache, which is
    the last byte sent, in 1-PPS mode with the counters out of reset and
    the interrupt enabled. *)
Theorem init_effect (d : driver) :
  let d' := vctcxo_tamer_init P d in
  let c := vctcxo_tamer_ctrl_reg d in
  let c' := vctcxo_tamer_ctrl_reg d' in
  (exists b1 b2 b3 b4 : Z,
     hw_writes d' =
       hw_writes d ++ (VT_STATE_ADDR P, 0) :: map (ctrl_write P) [b1; b2; b3; b4; c']) /\
  Z.testbit c' 0 = false /\ Z.testbit c' 1 = true /\
  Z.testbit c' 6 = true /\ Z.testbit c' 7 = false /\
  (forall n, 2 <= n < 6 -> Z.testbit c' n = Z.testbit c n) /\
  vctcxo_trim_dac_value d' = vctcxo_trim_dac_value d.
Proof.
  cbv zeta. set (c := vctcxo_tamer_ctrl_reg d).
  unfold vctcxo_tamer_init. tune_mode_steps. fold c.
  split.
  { do 4 eexists. unfold ctrl_write. cbn [map].
    repeat rewrite <- app_assoc. cbn [app]. reflexivity. }
  (split; [by_bit c |]); (split; [by_bit c |]); (split; [by_bit c |]);
    (split; [by_bit c |]); (split; [| reflexivity]).
  intros n Hn; bit_cases n Hn; by_bit c.
Qed.

(** X7 -- [vctcxo_tamer_dis] sends three bytes to the control register and
    then writes 0 to the state register; it leaves the cache, which is the
    last control byte sent, in Disabled mode with the counters held in
    reset and the interrupt disabled. *)
Theorem dis_effect (d : driver) :
  let d' := vctcxo_tamer_dis P d in
  let c := vctcxo_tamer_ctrl_reg d in
  let c' := vctcxo_tamer_ctrl_reg d' in
  (exists b1 b2 : Z,
     hw_writes d' =
       hw_writes d ++ map (ctrl_write P) [b1; b2; c'] ++ [(VT_STATE_ADDR P, 0)]) /\
  Z.testbit c' 0 = true /\ Z.testbit c' 1 = false /\
  Z.testbit c' 6 = false /\ Z.testbit c' 7 = false /\
  (forall n, 2 <= n < 6 -> Z.testbit c' n = Z.testbit c n) /\
  vctcxo_trim_dac_value d' = vctcxo_trim_dac_value d.
Proof.
  cbv zeta. set (c := vctcxo_tamer_ctrl_reg d).
  unfold vctcxo_tamer_dis. tune_mode_steps. fold c.
  split.
  { do 2 eexists. unfold ctrl_write. cbn [map].
    repeat rewrite <- app_assoc. cbn [app]. reflexivity. }
  (split; [by_bit c |]); (split; [by_bit c |]); (split; [by_bit c |]);
    (split; [by_bit c |]); (split; [| reflexivity]).
  intros n Hn; bit_cases n Hn; by_bit c.
Qed.

End DriverExtra.

(* ================================================================== *)
(** ** Further properties of the control loop *)

Section LoopExtra.

Context (P : platform).

Lemma fine_tune_frame (pkt : vctcxo_tamer_pkt_buf) (d : driver) (l : line_t) :
  let d1 := fst (fst (fine_tune P pkt (d, l))) in
  vctcxo_tamer_ctrl_reg d1 = vctcxo_tamer_ctrl_reg d /\
  exists earlier, hw_writes d1 = hw_writes d ++ earlier.
Proof.
  cbv zeta. unfold fine_tune.
  destruct (pps_1s_error_flag pkt);
    [| destruct (pps_10s_error_flag pkt); [| destruct (pps_100s_error_flag pkt)]];
    cbn [fst];
    try (match goal with
         | |- context [adjust_trim_dac P ?e ?sl ?sc d] =>
             destruct (adjust_trim_dac_effect P e sl sc d) as (_ & Hw & Hc)
         end;
         split; [exact Hc | eexists; exact Hw]).
  split; [reflexivity | exists []; rewrite app_nil_r; reflexivity].
Qed.

(** X8 -- In every phase, an FSM run that consumes a sample ends with
    two writes to the control register, the first with the reset bit
    cleared and the last being the new cache: reset released, interrupt
    enabled, the other bits of the cache (the tune mode among them) as
    they were. *)
Theorem fsm_rearms (s : main_state) :
  ready (vctcxo_tamer_pkt s) = true ->
  let d' := drv (calibration_fsm P s) in
  let c := vctcxo_tamer_ctrl_reg (drv s) in
  let c' := vctcxo_tamer_ctrl_reg d' in
  Z.testbit c' 0 = false /\
  Z.testbit c' 1 = true /\
  (forall n, 2 <= n < 8 -> Z.testbit c' n = Z.testbit c n) /\
  exists earlier b,
    hw_writes d' =
      hw_writes (drv s) ++ earlier ++ [ctrl_write P b; ctrl_write P c'] /\
    Z.testbit b 0 = false.
Proof.
  intros Hr. cbv zeta. unfold calibration_fsm. rewrite Hr.
  set (c := vctcxo_tamer_ctrl_reg (drv s)).
  assert (Hfinal : forall d1 : driver,
            (vctcxo_tamer_ctrl_reg d1 = c \/
             vctcxo_tamer_ctrl_reg d1 = set_bits8 c VT_CTRL_RESET) ->
            (exists earlier, hw_writes d1 = hw_writes (drv s) ++ earlier) ->
            let d' := vctcxo_tamer_enable_isr P true
                        (vctcxo_tamer_reset_counters P false d1) in
            let c' := vctcxo_tamer_ctrl_reg d' in
            Z.testbit c' 0 = false /\ Z.testbit c' 1 = true /\
            (forall n, 2 <= n < 8 -> Z.testbit c' n = Z.testbit c n) /\
            exists earlier b,
              hw_writes d' =
                hw_writes (drv s) ++ earlier ++ [ctrl_write P b; ctrl_write P c'] /\
              Z.testbit b 0 = false).
  { intros d1 Hc [earlier Hw]. cbv zeta. driver_steps. rewrite Hw.
    assert (Hb : forall n, 0 <= n < 8 ->
              Z.testbit (vctcxo_tamer_ctrl_reg d1) n =
              Z.testbit c n || (if n =? 0 then true else false)
              \/ Z.testbit (vctcxo_tamer_ctrl_reg d1) n = Z.testbit c n).
    { intros n Hn. destruct Hc as [-> | ->]; [right; reflexivity |].
      left. bits8.
      assert (E : n = 0 \/ n = 1 \/ n = 2 \/ n = 3 \/ n = 4 \/ n = 5 \/ n = 6 \/ n = 7)
        by lia.
      repeat (destruct E as [E | E]; [subst n; reflexivity |]). subst n. reflexivity. }
    split. { bits8. destruct (Z.testbit (vctcxo_tamer_ctrl_reg d1) 0); reflexivity. }
    split. { bits8. destruct (Z.testbit (vctcxo_tamer_ctrl_reg d1) 1); reflexivity. }
    split.
    { intros n Hn. destruct (Hb n ltac:(lia)) as [Hn' | Hn'].
      - bit_cases n Hn; bits8; rewrite Hn'; cbn [Z.eqb];
          match goal with |- context [Z.testbit c ?k] => destruct (Z.testbit c k) end;
          reflexivity.
      - bit_cases n Hn; bits8; rewrite Hn';
          match goal with |- context [Z.testbit c ?k] => destruct (Z.testbit c k) end;
          reflexivity. }
    exists earlier, (clear_bits8 (vctcxo_tamer_ctrl_reg d1) VT_CTRL_RESET).
    split.
    { unfold ctrl_write. repeat rewrite <- app_assoc. reflexivity. }
    bits8. destruct (Z.testbit (vctcxo_tamer_ctrl_reg d1) 0); reflexivity. }
  destruct (tune_state s).
  - unfold coarse_tune_min. cbn [drv]. apply Hfinal.
    + right. reflexivity.
    + unfold vctcxo_trim_dac_write. driver_steps.
      eexists. repeat rewrite <- app_assoc. reflexivity.
  - unfold coarse_tune_max. cbn [drv]. apply Hfinal.
    + right. reflexivity.
    + unfold vctcxo_trim_dac_write. driver_steps.
      eexists. repeat rewrite <- app_assoc. reflexivity.
  - unfold coarse_tune_done. cbn [drv]. apply Hfinal.
    + left. reflexivity.
    + unfold vctcxo_trim_dac_write. driver_steps.
      eexists. repeat rewrite <- app_assoc. reflexivity.
  - destruct (fine_tune_frame (set_ready false (vctcxo_tamer_pkt s))
                (drv s) (trimdac_cal_line s)) as [Hc1 Hw1].
    destruct (fine_tune P (set_ready false (vctcxo_tamer_pkt s))
                (drv s, trimdac_cal_line s)) as [[d1 l1] t1].
    cbn [fst] in Hc1, Hw1. cbn [drv]. apply Hfinal.
    + left. exact Hc1.
    + exact Hw1.
Qed.

(** X9 -- A loop iteration that finds the status register at zero, the
    enable bit unchanged and the mailbox not ready writes no register and
    changes nothing but the remembered enable bit. *)
Theorem idle_iteration (inp : loop_input) (s : main_state) :
  vctcxo_tamer_read (poll_regs inp) (VT_STAT_ADDR P) = 0 ->
  to_uint8 (Z.land (status_csr inp) 1) = vctcxo_tamer_en s ->
  ready (vctcxo_tamer_pkt s) = false ->
  main_loop_body P inp s =
    MainState (drv s) (vctcxo_tamer_pkt s) (trimdac_cal_line s) (tune_state s)
              (vctcxo_tamer_en s) (vctcxo_tamer_en s).
Proof.
  intros Hstat Hen Hr.
  unfold main_loop_body, poll_error_status, poll_enable.
  cbn [drv tune_state trimdac_cal_line vctcxo_tamer_pkt vctcxo_tamer_en
       vctcxo_tamer_en_old].
  rewrite Hstat, Hen. cbn [Z.eqb negb].
  unfold enable_edge.
  cbn [drv tune_state trimdac_cal_line vctcxo_tamer_pkt vctcxo_tamer_en
       vctcxo_tamer_en_old].
  rewrite Z.eqb_refl. cbn [negb].
  unfold calibration_fsm. cbn [vctcxo_tamer_pkt]. rewrite Hr. reflexivity.
Qed.

(** The driver and mailbox after the status poll of one iteration. *)
Lemma poll_cases (inp : loop_input) (s : main_state) :
  let s1 := poll_error_status P inp (poll_enable inp s) in
  vctcxo_tamer_en s1 = to_uint8 (Z.land (status_csr inp) 1) /\
  vctcxo_tamer_en_old s1 = vctcxo_tamer_en s /\
  tune_state s1 = tune_state s /\
  trimdac_cal_line s1 = trimdac_cal_line s /\
  ((vctcxo_tamer_read (poll_regs inp) (VT_STAT_ADDR P) = 0 /\
    drv s1 = drv s /\ vctcxo_tamer_pkt s1 = vctcxo_tamer_pkt s) \/
   (vctcxo_tamer_read (poll_regs inp) (VT_STAT_ADDR P) <> 0 /\
    drv s1 = fst (vctcxo_tamer_isr P (isr_regs inp) (drv s, vctcxo_tamer_pkt s)) /\
    vctcxo_tamer_pkt s1 = sample_of P (isr_regs inp))).
Proof.
  cbv zeta. unfold poll_error_status, poll_enable.
  cbn [drv tune_state trimdac_cal_line vctcxo_tamer_pkt vctcxo_tamer_en
       vctcxo_tamer_en_old].
  destruct (Z.eqb_spec (vctcxo_tamer_read (poll_regs inp) (VT_STAT_ADDR P)) 0)
    as [Hz | Hnz]; cbn [negb].
  - repeat (split; [reflexivity |]). left. repeat split. exact Hz.
  - repeat (split; [reflexivity |]). right. repeat split. exact Hnz.
Qed.

(** X10 -- A loop iteration in which the enable bit changes to a value
    other than 1 ends in CoarseMin with the mailbox not ready, even when a
    sample was published in the same iteration (that sample is dropped);
    the trim code and the calibration line are left as they were, the
    control cache is in Disabled mode with the counters in reset and the
    interrupt disabled, and the last register write is 0 to the state
    register, after writes to the control register only. *)
Theorem disable_edge_iteration (inp : loop_input) (s : main_state) :
  to_uint8 (Z.land (status_csr inp) 1) <> vctcxo_tamer_en s ->
  to_uint8 (Z.land (status_csr inp) 1) <> 1 ->
  let s' := main_loop_body P inp s in
  let c' := vctcxo_tamer_ctrl_reg (drv s') in
  tune_state s' = COARSE_TUNE_MIN /\
  ready (vctcxo_tamer_pkt s') = false /\
  trimdac_cal_line s' = trimdac_cal_line s /\
  vctcxo_trim_dac_value (drv s') = vctcxo_trim_dac_value (drv s) /\
  Z.testbit c' 0 = true /\ Z.testbit c' 1 = false /\
  Z.testbit c' 6 = false /\ Z.testbit c' 7 = false /\
  exists bytes : list Z,
    hw_writes (drv s') =
      hw_writes (drv s) ++ map (ctrl_write P) bytes ++ [(VT_STATE_ADDR P, 0)].
Proof.
  intros Hedge Hoff. cbv zeta. unfold main_loop_body.
  destruct (poll_cases inp s) as (Hen & Hold & Ht & Hl & Hpoll).
  set (s1 := poll_error_status P inp (poll_enable inp s)) in *.
  assert (Hs2 : enable_edge P s1 =
                MainState (vctcxo_tamer_dis P (drv s1))
                          (set_ready false (vctcxo_tamer_pkt s1))
                          (trimdac_cal_line s1) COARSE_TUNE_MIN
                          (vctcxo_tamer_en s1) (vctcxo_tamer_en_old s1)).
  { unfold enable_edge. rewrite Hen, Hold.
    destruct (Z.eqb_spec (vctcxo_tamer_en s) (to_uint8 (Z.land (status_csr inp) 1)))
      as [E | _]; [congruence |].
    destruct (Z.eqb_spec (to_uint8 (Z.land (status_csr inp) 1)) 1)
      as [E | _]; [congruence |].
    reflexivity. }
  rewrite Hs2. unfold calibration_fsm.
  cbn [vctcxo_tamer_pkt ready set_ready drv tune_state trimdac_cal_line].
  assert (Hpolled :
            vctcxo_trim_dac_value (drv s1) = vctcxo_trim_dac_value (drv s) /\
            exists bytes, hw_writes (drv s1) =
                          hw_writes (drv s) ++ map (ctrl_write P) bytes).
  { destruct Hpoll as [(_ & -> & _) | (_ & -> & _)].
    - split; [reflexivity |]. exists []. cbn [map]. rewrite app_nil_r. reflexivity.
    - unfold vctcxo_tamer_isr, vctcxo_tamer_clear_isr. cbn [fst]. driver_steps.
      split; [reflexivity |].
      eexists [_; _; _]. unfold ctrl_write. cbn [map].
      repeat rewrite <- app_assoc. reflexivity. }
  destruct Hpolled as [Hdac [bytes Hw]].
  unfold vctcxo_tamer_dis. tune_mode_steps.
  set (c := vctcxo_tamer_ctrl_reg (drv s1)).
  split; [reflexivity |]. split; [reflexivity |]. split; [exact Hl |].
  split; [exact Hdac |].
  (split; [by_bit c |]); (split; [by_bit c |]); (split; [by_bit c |]);
    (split; [by_bit c |]).
  rewrite Hw. eexists (bytes ++ [_; _; _]).
  rewrite map_app. unfold ctrl_write. cbn [map].
  repeat rewrite <- app_assoc. reflexivity.
Qed.

Lemma cal_line_intercept_uint16 (l : line_t) :
  is_uint16 (y_intercept (cal_line P l)).
Proof.
  unfold cal_line.
  destruct (negb (to_int32 (x (point1 l) - x (point0 l)) =? 0)).
  - cbn [set_y_intercept y_intercept]. apply to_uint16_range.
  - cbn [set_y_intercept y_intercept]. unfold is_uint16, VCTCXO_DEFAULT_DAC_VALUE. lia.
Qed.

Lemma enable_iteration (inp : loop_input) (s : main_state) :
  vctcxo_tamer_en s <> 1 ->
  to_uint8 (Z.land (status_csr inp) 1) = 1 ->
  let s' := main_loop_body P inp s in
  tune_state s' = COARSE_TUNE_MAX /\
  trimdac_cal_line s' = trimdac_cal_line s /\
  vctcxo_trim_dac_value (drv s') = trimdac_min /\
  ready (vctcxo_tamer_pkt s') = false /\
  vctcxo_tamer_en s' = 1.
Proof.
  intros Hold Hnew. cbv zeta. unfold main_loop_body.
  destruct (poll_cases inp s) as (Hen & Ho & Ht & Hl & _).
  set (s1 := poll_error_status P inp (poll_enable inp s)) in *.
  unfold enable_edge. rewrite Hen, Ho, Hnew.
  destruct (Z.eqb_spec (vctcxo_tamer_en s) 1) as [E | _]; [contradiction |].
  cbn [negb Z.eqb Pos.eqb].
  unfold calibration_fsm. main_fields. cbn [ready set_ready].
  unfold coarse_tune_min, vctcxo_trim_dac_write. main_fields. driver_steps.
  repeat split. exact Hl.
Qed.

Lemma sample_iteration (inp : loop_input) (s : main_state) :
  vctcxo_tamer_en s = 1 ->
  to_uint8 (Z.land (status_csr inp) 1) = 1 ->
  vctcxo_tamer_read (poll_regs inp) (VT_STAT_ADDR P) <> 0 ->
  main_loop_body P inp s =
    calibration_fsm P
      (MainState (fst (vctcxo_tamer_isr P (isr_regs inp) (drv s, vctcxo_tamer_pkt s)))
                 (sample_of P (isr_regs inp))
                 (trimdac_cal_line s) (tune_state s) 1 1).
Proof.
  intros Hold Hnew Hstat. unfold main_loop_body, poll_error_status, poll_enable.
  main_fields.
  destruct (Z.eqb_spec (vctcxo_tamer_read (poll_regs inp) (VT_STAT_ADDR P)) 0)
    as [E | _]; [contradiction |].
  cbn [negb]. rewrite Hold, Hnew.
  unfold enable_edge. main_fields.
  destruct (vctcxo_tamer_isr P (isr_regs inp) (drv s, vctcxo_tamer_pkt s))
    as [d1 pkt1] eqn:Hisr.
  main_fields. cbn [Z.eqb Pos.eqb negb fst].
  f_equal. f_equal.
  change pkt1 with (snd (d1, pkt1)). rewrite <- Hisr. apply isr_publishes.
Qed.

(** X11 -- From a state where the module is not enabled, an iteration
    that sees the enable bit set followed by two iterations that each
    find the status register non-zero (enable still set) perform the
    coarse calibration: the DAC is at the minimum code after the first, at
    the maximum code after the second, which records the first sample's
    short-window error as [point0.x], and after the third the line is the
    one computed from the two errors, the phase is Fine and the trim code
    is the line's [y_intercept]. *)
Theorem coarse_calibration_run (inp1 inp2 inp3 : loop_input) (s : main_state) :
  vctcxo_tamer_en s <> 1 ->
  to_uint8 (Z.land (status_csr inp1) 1) = 1 ->
  to_uint8 (Z.land (status_csr inp2) 1) = 1 ->
  to_uint8 (Z.land (status_csr inp3) 1) = 1 ->
  vctcxo_tamer_read (poll_regs inp2) (VT_STAT_ADDR P) <> 0 ->
  vctcxo_tamer_read (poll_regs inp3) (VT_STAT_ADDR P) <> 0 ->
  let e0 := vctcxo_tamer_read_count (isr_regs inp2) (VT_ERR_1S_ADDR P) in
  let e1 := vctcxo_tamer_read_count (isr_regs inp3) (VT_ERR_1S_ADDR P) in
  let l := cal_line P (set_point1_x e1 (set_point0_x e0 (trimdac_cal_line s))) in
  let s1 := main_loop P [inp1] s in
  let s2 := main_loop P [inp1; inp2] s in
  let s3 := main_loop P [inp1; inp2; inp3] s in
  (tune_state s1 = COARSE_TUNE_MAX /\
   vctcxo_trim_dac_value (drv s1) = trimdac_min) /\
  (tune_state s2 = COARSE_TUNE_DONE /\
   vctcxo_trim_dac_value (drv s2) = trimdac_max P /\
   trimdac_cal_line s2 = set_point0_x e0 (trimdac_cal_line s)) /\
  (tune_state s3 = FINE_TUNE /\
   trimdac_cal_line s3 = l /\
   vctcxo_trim_dac_value (drv s3) = y_intercept l).
Proof.
  intros Hoff H1 H2 H3 Hp2 Hp3. cbv zeta. cbn [main_loop].
  destruct (enable_iteration inp1 s Hoff H1) as (Ht1 & Hl1 & Hd1 & Hr1 & He1).
  set (s1 := main_loop_body P inp1 s) in *.
  split; [split; assumption |].
  assert (Hs2 : tune_state (main_loop_body P inp2 s1) = COARSE_TUNE_DONE /\
                vctcxo_trim_dac_value (drv (main_loop_body P inp2 s1)) = trimdac_max P /\
                trimdac_cal_line (main_loop_body P inp2 s1) =
                  set_point0_x (vctcxo_tamer_read_count (isr_regs inp2) (VT_ERR_1S_ADDR P))
                               (trimdac_cal_line s) /\
                vctcxo_tamer_en (main_loop_body P inp2 s1) = 1).
  { rewrite (sample_iteration inp2 s1 He1 H2 Hp2).
    unfold calibration_fsm. main_fields. rewrite Ht1, Hl1.
    cbn [sample_of ready set_ready].
    unfold coarse_tune_max, vctcxo_trim_dac_write. main_fields. driver_steps.
    cbn [pps_1s_error].
    repeat split.
    unfold trimdac_max, to_uint16. apply Z.mod_mod. lia. }
  destruct Hs2 as (Ht2 & Hd2 & Hl2 & He2).
  set (s2 := main_loop_body P inp2 s1) in *.
  split; [repeat split; assumption |].
  rewrite (sample_iteration inp3 s2 He2 H3 Hp3).
  unfold calibration_fsm. main_fields. rewrite Ht2, Hl2.
  cbn [sample_of ready set_ready].
  unfold coarse_tune_done, vctcxo_trim_dac_write. main_fields. driver_steps.
  cbn [pps_1s_error].
  repeat split.
  apply to_uint16_small. apply cal_line_intercept_uint16.
Qed.

(** X14 -- Dead band: when the magnitude of the rounded product
    [round(e * slope)] is smaller than the scale, the truncating division
    makes the correction zero and [adjust_trim_dac] leaves a code that is
    within [0, DacMax] as it is. *)
Theorem adjust_dead_band (error : Z) (sl : F32.float) (scale : Z) (d : driver) (r : Z) :
  0 <= vctcxo_trim_dac_value d <= CONFIG_DAC_MAX P ->
  CONFIG_DAC_MAX P <= 65535 ->
  scale = 1 \/ scale = 10 \/ scale = 100 ->
  F32.nearest_away (F32.mul (F32.of_int error) sl) = Some r ->
  Z.abs r < scale ->
  vctcxo_trim_dac_value (adjust_trim_dac P error sl scale d) = vctcxo_trim_dac_value d.
Proof.
  intros Hdac Hmax Hscale Hr Hsmall.
  destruct (adjust_trim_dac_effect P error sl scale d) as (Hv & _ & _).
  rewrite Hv. unfold adjust_new_value.
  rewrite (lroundf_in_range P _ r Hr) by (unfold is_int32; lia).
  assert (Hq : Z.quot r scale = 0).
  { destruct (Z.le_gt_cases 0 r) as [Hpos | Hneg].
    - apply Z.quot_small. lia.
    - replace r with (- (- r)) by lia. rewrite Z.quot_opp_l by lia.
      rewrite Z.quot_small by lia. reflexivity. }
  rewrite Hq. change (to_int32 0) with 0. rewrite Z.sub_0_r.
  rewrite (to_int32_small (vctcxo_trim_dac_value d)) by (unfold is_int32; lia).
  rewrite (to_int32_small (vctcxo_trim_dac_value d)) by (unfold is_int32; lia).
  unfold clamp_dac.
  destruct (Z.gtb_spec (vctcxo_trim_dac_value d) (CONFIG_DAC_MAX P)); [lia |].
  destruct (Z.ltb_spec (vctcxo_trim_dac_value d) 0); [lia |].
  apply to_uint16_small. unfold is_uint16. lia.
Qed.

End LoopExtra.

(* ================================================================== *)
(** ** Invariants of the loop of [main] *)

Section Invariant.

Context (P : platform).

Lemma read_count_int32 (regs : reg_bank) (addr : Z) :
  is_int32 (vctcxo_tamer_read_count regs addr).
Proof.
  rewrite read_count_unsigned.
  pose proof (count_bytes_value_range regs addr) as Hu.
  rewrite (to_int32_unsigned _ Hu). unfold is_int32.
  destruct (Z.ltb_spec (count_bytes_value regs addr) (2 ^ 31)); lia.
Qed.

Lemma enable_bit_cases (v : Z) :
  to_uint8 (Z.land v 1) = 0 \/ to_uint8 (Z.land v 1) = 1.
Proof.
  assert (Hland : Z.land v 1 = v mod 2).
  { change 1 with (Z.ones 1). rewrite Z.land_ones by lia. reflexivity. }
  rewrite Hland.
  pose proof (Z.mod_pos_bound v 2 ltac:(lia)) as H.
  assert (E : v mod 2 = 0 \/ v mod 2 = 1) by lia.
  destruct E as [-> | ->]; [left | right]; reflexivity.
Qed.

Lemma state_ok_init : loop_inv P (main_init P).
Proof.
  unfold loop_inv, state_ok, main_init. main_fields.
  unfold vctcxo_trim_dac_write. driver_steps.
  cbn [point0 point1 x y y_intercept pps_1s_error ready].
  repeat split; try reflexivity; try (unfold is_int32; lia);
    try (unfold is_uint16; lia); try (vm_compute; intuition discriminate).
Qed.

Lemma state_ok_poll (inp : loop_input) (s : main_state) :
  state_ok P s -> state_ok P (poll_error_status P inp (poll_enable inp s)).
Proof.
  intros (Hc & Hd & Hy0 & Hy1 & Hx0 & Hx1 & Hyi & He & _).
  destruct (poll_cases P inp s) as (Hen & _ & _ & Hl & Hpoll).
  unfold state_ok. rewrite Hl, Hen.
  destruct Hpoll as [(_ & -> & ->) | (_ & -> & ->)].
  - repeat (split; [assumption |]). apply enable_bit_cases.
  - unfold vctcxo_tamer_isr, vctcxo_tamer_clear_isr. cbn [fst]. driver_steps.
    split; [enum_ctrl Hc |].
    repeat (split; [assumption |]).
    split; [apply read_count_int32 | apply enable_bit_cases].
Qed.

Lemma state_ok_edge (s : main_state) :
  state_ok P s -> state_ok P (enable_edge P s).
Proof.
  intros Hs. unfold enable_edge.
  destruct (negb (vctcxo_tamer_en_old s =? vctcxo_tamer_en s)); [| exact Hs].
  destruct Hs as (Hc & Hd & Hy0 & Hy1 & Hx0 & Hx1 & Hyi & He & Hen).
  destruct (vctcxo_tamer_en s =? 1); unfold state_ok; main_fields;
    unfold vctcxo_tamer_init, vctcxo_tamer_dis; tune_mode_steps;
    cbn [pps_1s_error set_ready];
    (split; [enum_ctrl Hc |]); repeat (split; [assumption |]); assumption.
Qed.

Lemma state_ok_fsm (s : main_state) :
  state_ok P s -> loop_inv P (calibration_fsm P s).
Proof.
  intros Hs. split; [| apply fsm_consumes].
  unfold calibration_fsm.
  destruct (ready (vctcxo_tamer_pkt s)); [| exact Hs].
  destruct Hs as (Hc & Hd & Hy0 & Hy1 & Hx0 & Hx1 & Hyi & He & Hen).
  destruct (tune_state s).
  - unfold coarse_tune_min, vctcxo_trim_dac_write, state_ok.
    main_fields. driver_steps. cbn [set_ready pps_1s_error].
    split; [enum_ctrl Hc |]. split; [apply to_uint16_range |].
    repeat (split; [assumption |]). assumption.
  - unfold coarse_tune_max, vctcxo_trim_dac_write, state_ok.
    main_fields. driver_steps.
    cbn [set_ready pps_1s_error set_point0_x point0 point1 x y y_intercept].
    split; [enum_ctrl Hc |]. split; [apply to_uint16_range |].
    repeat (split; [assumption |]). assumption.
  - unfold coarse_tune_done, vctcxo_trim_dac_write, state_ok.
    main_fields. driver_steps. cbn [set_ready pps_1s_error].
    split; [enum_ctrl Hc |]. split; [apply to_uint16_range |].
    assert (Hpts : forall l, point0 (cal_line P l) = point0 l /\
                             point1 (cal_line P l) = point1 l).
    { intros l. unfold cal_line.
      destruct (negb (to_int32 (x (point1 l) - x (point0 l)) =? 0));
        split; reflexivity. }
    destruct (Hpts (set_point1_x (pps_1s_error (vctcxo_tamer_pkt s))
                                 (trimdac_cal_line s))) as [-> ->].
    cbn [set_point1_x point0 point1 x y].
    repeat (split; [assumption |]).
    split; [apply cal_line_intercept_uint16 |]. split; assumption.
  - unfold fine_tune, state_ok. main_fields. cbn [set_ready pps_1s_error_flag
      pps_10s_error_flag pps_100s_error_flag pps_1s_error pps_10s_error
      pps_100s_error].
    assert (Hadj : forall e sc,
              In (vctcxo_tamer_ctrl_reg
                    (vctcxo_tamer_enable_isr P true
                       (vctcxo_tamer_reset_counters P false
                          (adjust_trim_dac P e (slope (trimdac_cal_line s)) sc (drv s)))))
                 ctrl_values /\
              is_uint16 (vctcxo_trim_dac_value
                    (vctcxo_tamer_enable_isr P true
                       (vctcxo_tamer_reset_counters P false
                          (adjust_trim_dac P e (slope (trimdac_cal_line s)) sc (drv s)))))).
    { intros e sc.
      destruct (adjust_trim_dac_effect P e (slope (trimdac_cal_line s)) sc (drv s))
        as (Hv & _ & Hcc).
      driver_steps. rewrite Hcc, Hv.
      split; [enum_ctrl Hc | apply to_uint16_range]. }
    destruct (pps_1s_error_flag (vctcxo_tamer_pkt s));
      [| destruct (pps_10s_error_flag (vctcxo_tamer_pkt s));
         [| destruct (pps_100s_error_flag (vctcxo_tamer_pkt s))]];
      try (destruct (Hadj (pps_1s_error (vctcxo_tamer_pkt s)) 1) as [H1 H2];
           split; [exact H1 |]; split; [exact H2 |];
           repeat (split; [assumption |]); assumption);
      try (destruct (Hadj (pps_10s_error (vctcxo_tamer_pkt s)) 10) as [H1 H2];
           split; [exact H1 |]; split; [exact H2 |];
           repeat (split; [assumption |]); assumption);
      try (destruct (Hadj (pps_100s_error (vctcxo_tamer_pkt s)) 100) as [H1 H2];
           split; [exact H1 |]; split; [exact H2 |];
           repeat (split; [assumption |]); assumption).
    driver_steps. split; [enum_ctrl Hc |].
    repeat (split; [assumption |]). assumption.
Qed.

Lemma loop_inv_step (inp : loop_input) (s : main_state) :
  loop_inv P s -> loop_inv P (main_loop_body P inp s).
Proof.
  intros [Hs _]. unfold main_loop_body.
  apply state_ok_fsm, state_ok_edge, state_ok_poll. exact Hs.
Qed.

(** X12 -- Between any two iterations of the loop of [main], however the
    inputs run: the cached control byte is one of 0x00-0x03, 0x40-0x43
    (the interrupt-clear bit is never cached, the 10 MHz mode never
    selected), the cached trim code is a 16-bit value, the y-coordinates
    of the calibration points are still the minimum and maximum codes,
    the recorded errors are signed 32-bit values, [y_intercept] is a
    16-bit value, the enable bit is 0 or 1, and the mailbox is not
    ready. *)
Theorem loop_invariant (inps : list loop_input) :
  loop_inv P (main_loop P inps (main_init P)).
Proof.
  assert (Hgen : forall s, loop_inv P s -> loop_inv P (main_loop P inps s)).
  { induction inps as [| inp rest IH]; intros s Hs; cbn [main_loop].
    - exact Hs.
    - apply IH. apply loop_inv_step. exact Hs. }
  apply Hgen. apply state_ok_init.
Qed.

End Invariant.

(* ================================================================== *)
(** ** The caches and the registers they shadow *)

Section Shadows.

Context (P : platform).
Hypothesis Hdist : distinct_registers P.

Lemma hw_regs_snoc (log : list reg_write) (a v addr : Z) :
  hw_regs (log ++ [(a, v)]) addr = if addr =? a then Some v else hw_regs log addr.
Proof. unfold hw_regs. rewrite fold_left_app. reflexivity. Qed.

Lemma dac_shadowed_write (a v : Z) (d : driver) :
  a <> VT_DAC_TUNNED_VAL_ADDR0 P -> a <> VT_DAC_TUNNED_VAL_ADDR1 P ->
  dac_shadowed P d -> dac_shadowed P (vctcxo_tamer_write a v d).
Proof.
  intros H0 H1 [Hlo Hhi]. unfold dac_shadowed. driver_steps.
  rewrite !hw_regs_snoc.
  destruct (Z.eqb_spec (VT_DAC_TUNNED_VAL_ADDR0 P) a); [congruence |].
  destruct (Z.eqb_spec (VT_DAC_TUNNED_VAL_ADDR1 P) a); [congruence |].
  split; assumption.
Qed.

Lemma dac_shadowed_ctrl_write (c v : Z) (d : driver) :
  dac_shadowed P d ->
  dac_shadowed P (vctcxo_tamer_write (VT_CTRL_ADDR P) v (set_ctrl_reg c d)).
Proof.
  intros H. destruct Hdist as (H0 & H1 & _).
  apply dac_shadowed_write; assumption.
Qed.

Lemma dac_shadowed_reset_counters (b : bool) (d : driver) :
  dac_shadowed P d -> dac_shadowed P (vctcxo_tamer_reset_counters P b d).
Proof.
  intros H. unfold vctcxo_tamer_reset_counters.
  destruct b; apply dac_shadowed_ctrl_write; exact H.
Qed.

Lemma dac_shadowed_enable_isr (b : bool) (d : driver) :
  dac_shadowed P d -> dac_shadowed P (vctcxo_tamer_enable_isr P b d).
Proof.
  intros H. unfold vctcxo_tamer_enable_isr.
  destruct b; apply dac_shadowed_ctrl_write; exact H.
Qed.

Lemma dac_shadowed_clear_isr (d : driver) :
  dac_shadowed P d -> dac_shadowed P (vctcxo_tamer_clear_isr P d).
Proof.
  intros H. unfold vctcxo_tamer_clear_isr. destruct Hdist as (H0 & H1 & _).
  apply dac_shadowed_write; assumption.
Qed.

Lemma dac_shadowed_state_write (v : Z) (d : driver) :
  dac_shadowed P d -> dac_shadowed P (vctcxo_tamer_write (VT_STATE_ADDR P) v d).
Proof.
  intros H. destruct Hdist as (_ & _ & _ & H0 & H1 & _).
  apply dac_shadowed_write; assumption.
Qed.

Lemma dac_shadowed_set_tune_mode (mode : Z) (d : driver) :
  dac_shadowed P d -> dac_shadowed P (vctcxo_tamer_set_tune_mode P mode d).
Proof.
  intros H. unfold vctcxo_tamer_set_tune_mode.
  destruct (valid_mode mode); [| exact H].
  cbv zeta.
  destruct (negb (mode =? 0));
    destruct ((mode =? VCTCXO_TAMER_1_PPS) || (mode =? VCTCXO_TAMER_10_MHZ));
    repeat first [ exact H
                 | apply dac_shadowed_enable_isr
                 | apply dac_shadowed_reset_counters
                 | apply dac_shadowed_ctrl_write ].
Qed.

Lemma dac_shadowed_isr (regs : reg_bank) (d : driver) (pkt : vctcxo_tamer_pkt_buf) :
  dac_shadowed P d -> dac_shadowed P (fst (vctcxo_tamer_isr P regs (d, pkt))).
Proof.
  intros H. unfold vctcxo_tamer_isr. cbn [fst].
  apply dac_shadowed_clear_isr, dac_shadowed_reset_counters,
    dac_shadowed_enable_isr. exact H.
Qed.

Lemma dac_shadowed_trim_write (val : Z) (d : driver) :
  dac_shadowed P (vctcxo_trim_dac_write P val d).
Proof.
  destruct Hdist as (_ & _ & _ & _ & _ & H01).
  unfold dac_shadowed, vctcxo_trim_dac_write. driver_steps.
  rewrite !hw_regs_snoc.
  rewrite dac_low_byte, dac_high_byte by apply to_uint16_range.
  rewrite !Z.eqb_refl.
  destruct (Z.eqb_spec (VT_DAC_TUNNED_VAL_ADDR0 P) (VT_DAC_TUNNED_VAL_ADDR1 P));
    [congruence |].
  split; reflexivity.
Qed.

Lemma dac_shadowed_adjust (e : Z) (sl : F32.float) (sc : Z) (d : driver) :
  dac_shadowed P (adjust_trim_dac P e sl sc d).
Proof. unfold adjust_trim_dac. apply dac_shadowed_trim_write. Qed.

Lemma ctrl_shadowed_last (c : Z) (d : driver) :
  ctrl_shadowed P (vctcxo_tamer_write (VT_CTRL_ADDR P) c (set_ctrl_reg c d)).
Proof.
  unfold ctrl_shadowed. driver_steps. rewrite hw_regs_snoc, Z.eqb_refl.
  intros b Hb. congruence.
Qed.

Lemma ctrl_shadowed_reset_counters (b : bool) (d : driver) :
  ctrl_shadowed P (vctcxo_tamer_reset_counters P b d).
Proof. unfold vctcxo_tamer_reset_counters. destruct b; apply ctrl_shadowed_last. Qed.

Lemma ctrl_shadowed_enable_isr (b : bool) (d : driver) :
  ctrl_shadowed P (vctcxo_tamer_enable_isr P b d).
Proof. unfold vctcxo_tamer_enable_isr. destruct b; apply ctrl_shadowed_last. Qed.

Lemma ctrl_shadowed_other_write (a v : Z) (d : driver) :
  a <> VT_CTRL_ADDR P ->
  ctrl_shadowed P d -> ctrl_shadowed P (vctcxo_tamer_write a v d).
Proof.
  intros Ha H. unfold ctrl_shadowed. driver_steps. rewrite hw_regs_snoc.
  destruct (Z.eqb_spec (VT_CTRL_ADDR P) a); [congruence |]. exact H.
Qed.

Lemma valid_set_tune_mode_shadowed (mode : Z) (d : driver) :
  valid_mode mode = true -> ctrl_shadowed P (vctcxo_tamer_set_tune_mode P mode d).
Proof.
  intros Hv. unfold vctcxo_tamer_set_tune_mode. rewrite Hv. cbv zeta.
  destruct (negb (mode =? 0));
    destruct ((mode =? VCTCXO_TAMER_1_PPS) || (mode =? VCTCXO_TAMER_10_MHZ));
    first [ apply ctrl_shadowed_enable_isr | apply ctrl_shadowed_reset_counters ].
Qed.

Lemma ctrl_shadowed_init (d : driver) : ctrl_shadowed P (vctcxo_tamer_init P d).
Proof. unfold vctcxo_tamer_init. apply valid_set_tune_mode_shadowed. reflexivity. Qed.

Lemma ctrl_shadowed_dis (d : driver) : ctrl_shadowed P (vctcxo_tamer_dis P d).
Proof.
  unfold vctcxo_tamer_dis. destruct Hdist as (_ & _ & Hcs & _).
  apply ctrl_shadowed_other_write; [congruence |].
  apply valid_set_tune_mode_shadowed. reflexivity.
Qed.

Lemma shadow_poll (inp : loop_input) (s : main_state) :
  dac_shadowed P (drv s) -> ctrl_shadowed P (drv s) ->
  shadowed_or_pending P (poll_error_status P inp (poll_enable inp s)).
Proof.
  intros Hd Hc. unfold shadowed_or_pending.
  destruct (poll_cases P inp s) as (_ & _ & _ & _ & [(_ & -> & _) | (_ & -> & ->)]).
  - split; [exact Hd | left; exact Hc].
  - split; [apply dac_shadowed_isr; exact Hd | right; reflexivity].
Qed.

Lemma shadow_edge (s : main_state) :
  shadowed_or_pending P s -> shadowed_or_pending P (enable_edge P s).
Proof.
  intros [Hd Hc]. unfold enable_edge.
  destruct (negb (vctcxo_tamer_en_old s =? vctcxo_tamer_en s)); [| split; assumption].
  destruct (vctcxo_tamer_en s =? 1); unfold shadowed_or_pending; main_fields.
  - split.
    + unfold vctcxo_tamer_init.
      apply dac_shadowed_set_tune_mode, dac_shadowed_state_write. exact Hd.
    + left. apply ctrl_shadowed_init.
  - split.
    + unfold vctcxo_tamer_dis.
      apply dac_shadowed_state_write, dac_shadowed_set_tune_mode. exact Hd.
    + left. apply ctrl_shadowed_dis.
Qed.

Lemma shadow_fsm (s : main_state) :
  shadowed_or_pending P s ->
  dac_shadowed P (drv (calibration_fsm P s)) /\
  ctrl_shadowed P (drv (calibration_fsm P s)).
Proof.
  intros [Hd Hc]. unfold calibration_fsm.
  destruct (ready (vctcxo_tamer_pkt s)) eqn:Hr.
  - assert (Hrearm : forall d1, dac_shadowed P d1 ->
              dac_shadowed P (vctcxo_tamer_enable_isr P true
                                (vctcxo_tamer_reset_counters P false d1)) /\
              ctrl_shadowed P (vctcxo_tamer_enable_isr P true
                                 (vctcxo_tamer_reset_counters P false d1))).
    { intros d1 H1. split.
      - apply dac_shadowed_enable_isr, dac_shadowed_reset_counters. exact H1.
      - apply ctrl_shadowed_enable_isr. }
    destruct (tune_state s).
    + unfold coarse_tune_min. main_fields. apply Hrearm.
      apply dac_shadowed_reset_counters, dac_shadowed_trim_write.
    + unfold coarse_tune_max. main_fields. apply Hrearm.
      apply dac_shadowed_reset_counters, dac_shadowed_trim_write.
    + unfold coarse_tune_done. main_fields. apply Hrearm.
      apply dac_shadowed_trim_write.
    + unfold fine_tune.
      destruct (pps_1s_error_flag (set_ready false (vctcxo_tamer_pkt s)));
        [| destruct (pps_10s_error_flag (set_ready false (vctcxo_tamer_pkt s)));
           [| destruct (pps_100s_error_flag (set_ready false (vctcxo_tamer_pkt s)))]];
        main_fields; apply Hrearm;
        first [ apply dac_shadowed_adjust | exact Hd ].
  - split; [exact Hd |]. destruct Hc as [Hc | Hc]; [exact Hc | congruence].
Qed.

Lemma shadow_step (inp : loop_input) (s : main_state) :
  dac_shadowed P (drv s) /\ ctrl_shadowed P (drv s) ->
  dac_shadowed P (drv (main_loop_body P inp s)) /\
  ctrl_shadowed P (drv (main_loop_body P inp s)).
Proof.
  intros [Hd Hc]. unfold main_loop_body.
  apply shadow_fsm, shadow_edge, shadow_poll; assumption.
Qed.

(** X13 -- When the control, state and DAC registers are four different
    registers, between any two iterations of the loop of [main] the two
    DAC registers hold the low and high bytes of the cached trim code,
    and the control register, once written, holds the cached control
    byte (the interrupt-clear pulse sent by the handler never outlives
    the iteration). *)
Theorem caches_shadow_registers (inps : list loop_input) :
  let s := main_loop P inps (main_init P) in
  dac_shadowed P (drv s) /\ ctrl_shadowed P (drv s).
Proof.
  cbv zeta.
  assert (Hgen : forall s,
            dac_shadowed P (drv s) /\ ctrl_shadowed P (drv s) ->
            dac_shadowed P (drv (main_loop P inps s)) /\
            ctrl_shadowed P (drv (main_loop P inps s))).
  { induction inps as [| inp rest IH]; intros s Hs; cbn [main_loop].
    - exact Hs.
    - apply IH, shadow_step. exact Hs. }
  apply Hgen. unfold main_init. main_fields. split.
  - apply dac_shadowed_trim_write.
  - destruct Hdist as (H0 & H1 & _).
    unfold ctrl_shadowed, vctcxo_trim_dac_write. driver_steps.
    rewrite !hw_regs_snoc.
    destruct (Z.eqb_spec (VT_CTRL_ADDR P) (VT_DAC_TUNNED_VAL_ADDR1 P)); [congruence |].
    destruct (Z.eqb_spec (VT_CTRL_ADDR P) (VT_DAC_TUNNED_VAL_ADDR0 P)); [congruence |].
    intros b Hb. discriminate Hb.
Qed.

Lemma state_reg_write (a v : Z) (d : driver) :
  state_reg P (vctcxo_tamer_write a v d) =
    if VT_STATE_ADDR P =? a then Some v else state_reg P d.
Proof. unfold state_reg. driver_steps. apply hw_regs_snoc. Qed.

Lemma state_reg_ctrl_write (c v : Z) (d : driver) :
  state_reg P (vctcxo_tamer_write (VT_CTRL_ADDR P) v (set_ctrl_reg c d)) = state_reg P d.
Proof.
  rewrite state_reg_write. destruct Hdist as (_ & _ & Hcs & _).
  destruct (Z.eqb_spec (VT_STATE_ADDR P) (VT_CTRL_ADDR P)); [congruence |].
  reflexivity.
Qed.

Lemma state_reg_reset_counters (b : bool) (d : driver) :
  state_reg P (vctcxo_tamer_reset_counters P b d) = state_reg P d.
Proof. unfold vctcxo_tamer_reset_counters. destruct b; apply state_reg_ctrl_write. Qed.

Lemma state_reg_enable_isr (b : bool) (d : driver) :
  state_reg P (vctcxo_tamer_enable_isr P b d) = state_reg P d.
Proof. unfold vctcxo_tamer_enable_isr. destruct b; apply state_reg_ctrl_write. Qed.

Lemma state_reg_isr (regs : reg_bank) (d : driver) (pkt : vctcxo_tamer_pkt_buf) :
  state_reg P (fst (vctcxo_tamer_isr P regs (d, pkt))) = state_reg P d.
Proof.
  unfold vctcxo_tamer_isr, vctcxo_tamer_clear_isr. cbn [fst].
  rewrite state_reg_write. destruct Hdist as (_ & _ & Hcs & _).
  destruct (Z.eqb_spec (VT_STATE_ADDR P) (VT_CTRL_ADDR P)); [congruence |].
  rewrite state_reg_reset_counters, state_reg_enable_isr. reflexivity.
Qed.

Lemma state_reg_set_tune_mode (mode : Z) (d : driver) :
  state_reg P (vctcxo_tamer_set_tune_mode P mode d) = state_reg P d.
Proof.
  unfold vctcxo_tamer_set_tune_mode.
  destruct (valid_mode mode); [| reflexivity].
  cbv zeta.
  destruct (negb (mode =? 0));
    destruct ((mode =? VCTCXO_TAMER_1_PPS) || (mode =? VCTCXO_TAMER_10_MHZ));
    repeat first [ rewrite state_reg_enable_isr
                 | rewrite state_reg_reset_counters
                 | rewrite state_reg_ctrl_write ];
    reflexivity.
Qed.

Lemma state_reg_trim_write (val : Z) (d : driver) :
  state_reg P (vctcxo_trim_dac_write P val d) = state_reg P d.
Proof.
  unfold vctcxo_trim_dac_write. cbv zeta. rewrite !state_reg_write.
  destruct Hdist as (_ & _ & _ & H0 & H1 & _).
  destruct (Z.eqb_spec (VT_STATE_ADDR P) (VT_DAC_TUNNED_VAL_ADDR1 P)); [congruence |].
  destruct (Z.eqb_spec (VT_STATE_ADDR P) (VT_DAC_TUNNED_VAL_ADDR0 P)); [congruence |].
  reflexivity.
Qed.

Lemma state_reg_adjust (e : Z) (sl : F32.float) (sc : Z) (d : driver) :
  state_reg P (adjust_trim_dac P e sl sc d) = state_reg P d.
Proof. unfold adjust_trim_dac. cbv zeta. rewrite state_reg_trim_write. reflexivity. Qed.

Lemma state_reg_rearm (d : driver) :
  state_reg P (vctcxo_tamer_enable_isr P true (vctcxo_tamer_reset_counters P false d))
    = state_reg P d.
Proof. rewrite state_reg_enable_isr, state_reg_reset_counters. reflexivity. Qed.

Lemma state_reg_step (inp : loop_input) (s : main_state) :
  state_reg_tracks_phase P s -> state_reg_tracks_phase P (main_loop_body P inp s).
Proof.
  intros Hs. unfold main_loop_body.
  assert (H1 : state_reg_tracks_phase P (poll_error_status P inp (poll_enable inp s))).
  { unfold state_reg_tracks_phase in *.
    destruct (poll_cases P inp s) as (_ & _ & -> & _ & [(_ & -> & _) | (_ & -> & _)]).
    - exact Hs.
    - rewrite state_reg_isr. exact Hs. }
  set (s1 := poll_error_status P inp (poll_enable inp s)) in *.
  assert (H2 : state_reg_tracks_phase P (enable_edge P s1)).
  { unfold enable_edge.
    destruct (negb (vctcxo_tamer_en_old s1 =? vctcxo_tamer_en s1)); [| exact H1].
    destruct (vctcxo_tamer_en s1 =? 1); unfold state_reg_tracks_phase; main_fields.
    - unfold vctcxo_tamer_init.
      rewrite state_reg_set_tune_mode, state_reg_write, Z.eqb_refl.
      split; intros H; discriminate H.
    - unfold vctcxo_tamer_dis. rewrite state_reg_write, Z.eqb_refl.
      split; intros H; discriminate H. }
  set (s2 := enable_edge P s1) in *.
  unfold calibration_fsm.
  destruct (ready (vctcxo_tamer_pkt s2)); [| exact H2].
  unfold state_reg_tracks_phase in *.
  destruct (tune_state s2) eqn:Ht.
  - unfold coarse_tune_min. main_fields.
    rewrite state_reg_rearm, state_reg_reset_counters, state_reg_trim_write.
    split; [intros H; apply H2 in H; discriminate H | intros H; discriminate H].
  - unfold coarse_tune_max. main_fields.
    rewrite state_reg_rearm, state_reg_reset_counters, state_reg_trim_write.
    split; [intros H; apply H2 in H; discriminate H | intros H; discriminate H].
  - unfold coarse_tune_done. main_fields.
    rewrite state_reg_rearm, state_reg_trim_write, state_reg_write, Z.eqb_refl.
    split; reflexivity.
  - unfold fine_tune.
    destruct (pps_1s_error_flag (set_ready false (vctcxo_tamer_pkt s2)));
      [| destruct (pps_10s_error_flag (set_ready false (vctcxo_tamer_pkt s2)));
         [| destruct (pps_100s_error_flag (set_ready false (vctcxo_tamer_pkt s2)))]];
      main_fields; rewrite state_reg_rearm, ?state_reg_adjust;
      split; intros _; [reflexivity | apply H2; reflexivity
                       | reflexivity | apply H2; reflexivity
                       | reflexivity | apply H2; reflexivity
                       | reflexivity | apply H2; reflexivity].
Qed.

(** X15 -- When the control, state and DAC registers are four different
    registers, between any two iterations of the loop of [main] the state
    register holds 1 exactly when the phase is Fine. *)
Theorem state_register_tracks_fine (inps : list loop_input) :
  state_reg_tracks_phase P (main_loop P inps (main_init P)).
Proof.
  assert (Hgen : forall s, state_reg_tracks_phase P s ->
                           state_reg_tracks_phase P (main_loop P inps s)).
  { induction inps as [| inp rest IH]; intros s Hs; cbn [main_loop].
    - exact Hs.
    - apply IH, state_reg_step. exact Hs. }
  apply Hgen. unfold state_reg_tracks_phase, main_init. main_fields.
  rewrite state_reg_trim_write. unfold state_reg. cbn.
  split; intros H; discriminate H.
Qed.

End Shadows.

(* ================================================================== *)
(** ** Direction of the correction *)

Section Monotone.

Context (P : platform).

Lemma adjust_value_exact (error : Z) (sl : F32.float) (scale : Z) (d : driver) (r : Z) :
  0 <= CONFIG_DAC_MAX P <= 65535 ->
  1 <= scale ->
  is_uint16 (vctcxo_trim_dac_value d) ->
  F32.nearest_away (F32.mul (F32.of_int error) sl) = Some r ->
  Z.abs r <= 2 ^ 31 - 2 ^ 16 ->
  vctcxo_trim_dac_value (adjust_trim_dac P error sl scale d) =
    clamp_dac P (vctcxo_trim_dac_value d - Z.quot r scale).
Proof.
  intros Hmax Hscale Hcur Hr Hsmall. unfold is_uint16 in Hcur.
  destruct (adjust_trim_dac_effect P error sl scale d) as (Hv & _ & _).
  rewrite Hv. unfold adjust_new_value.
  assert (Hr32 : is_int32 r) by (unfold is_int32; lia).
  rewrite (lroundf_in_range P _ r Hr Hr32).
  pose proof (quot_int32 r scale Hr32 Hscale) as Hq.
  assert (Hqabs : Z.abs (Z.quot r scale) <= Z.abs r).
  { destruct (Z.le_gt_cases 0 r) as [Hpos | Hneg].
    - pose proof (Z.quot_pos r scale Hpos ltac:(lia)).
      pose proof (Z.quot_le_upper_bound r scale r ltac:(lia) ltac:(nia)). lia.
    - assert (E : Z.quot r scale = - Z.quot (- r) scale).
      { rewrite Z.quot_opp_l by lia. lia. }
      pose proof (Z.quot_pos (- r) scale ltac:(lia) ltac:(lia)).
      pose proof (Z.quot_le_upper_bound (- r) scale (- r) ltac:(lia) ltac:(nia)).
      lia. }
  rewrite (to_int32_small (Z.quot r scale)) by exact Hq.
  rewrite (to_int32_small (vctcxo_trim_dac_value d)) by (unfold is_int32; lia).
  rewrite (to_int32_small (vctcxo_trim_dac_value d - Z.quot r scale))
    by (unfold is_int32; lia).
  apply to_uint16_small. unfold is_uint16.
  pose proof (clamp_dac_range P (vctcxo_trim_dac_value d - Z.quot r scale) ltac:(lia)).
  lia.
Qed.

(** X16 -- From the same trim code and at the same scale, a larger
    rounded product gives a smaller or equal code: [adjust_trim_dac] is
    monotone (decreasing) in [round(e * slope)], as long as the rounded
    products stay within 2^31 - 2^16 in magnitude. *)
Theorem adjust_trim_dac_monotone
    (e1 e2 : Z) (sl1 sl2 : F32.float) (scale : Z) (d : driver) (r1 r2 : Z) :
  0 <= CONFIG_DAC_MAX P <= 65535 ->
  scale = 1 \/ scale = 10 \/ scale = 100 ->
  is_uint16 (vctcxo_trim_dac_value d) ->
  F32.nearest_away (F32.mul (F32.of_int e1) sl1) = Some r1 ->
  F32.nearest_away (F32.mul (F32.of_int e2) sl2) = Some r2 ->
  Z.abs r1 <= 2 ^ 31 - 2 ^ 16 ->
  Z.abs r2 <= 2 ^ 31 - 2 ^ 16 ->
  r1 <= r2 ->
  vctcxo_trim_dac_value (adjust_trim_dac P e2 sl2 scale d) <=
  vctcxo_trim_dac_value (adjust_trim_dac P e1 sl1 scale d).
Proof.
  intros Hmax Hscale Hcur Hr1 Hr2 Hs1 Hs2 Hle.
  assert (Hsc : 1 <= scale) by lia.
  rewrite (adjust_value_exact e1 sl1 scale d r1) by assumption.
  rewrite (adjust_value_exact e2 sl2 scale d r2) by assumption.
  rewrite !clamp_dac_min_max by lia.
  pose proof (Z.quot_le_mono r1 r2 scale ltac:(lia) Hle). lia.
Qed.

End Monotone.

Section EnableEdge.

Context (P : platform).

(** X17 -- A loop iteration that sees the enable bit go to 1 ends in
    CoarseMax with the DAC at the minimum code, whatever the phase, the
    mailbox and the status register were: the calibration line is kept,
    the mailbox is not ready, and the control cache is in 1-PPS mode with
    the counters out of reset and the interrupt enabled. *)
Theorem enable_edge_iteration (inp : loop_input) (s : main_state) :
  vctcxo_tamer_en s <> 1 ->
  to_uint8 (Z.land (status_csr inp) 1) = 1 ->
  let s' := main_loop_body P inp s in
  let c' := vctcxo_tamer_ctrl_reg (drv s') in
  tune_state s' = COARSE_TUNE_MAX /\
  ready (vctcxo_tamer_pkt s') = false /\
  trimdac_cal_line s' = trimdac_cal_line s /\
  vctcxo_trim_dac_value (drv s') = trimdac_min /\
  Z.testbit c' 0 = false /\ Z.testbit c' 1 = true /\
  Z.testbit c' 6 = true /\ Z.testbit c' 7 = false.
Proof.
  intros Hold Hnew. cbv zeta.
  destruct (enable_iteration P inp s Hold Hnew) as (Ht & Hl & Hd & Hr & _).
  repeat (split; [assumption |]).
  unfold main_loop_body.
  destruct (poll_cases P inp s) as (Hen & Ho & _).
  set (s1 := poll_error_status P inp (poll_enable inp s)) in *.
  unfold enable_edge. rewrite Hen, Ho, Hnew.
  destruct (Z.eqb_spec (vctcxo_tamer_en s) 1) as [E | _]; [contradiction |].
  cbn [negb Z.eqb Pos.eqb].
  unfold calibration_fsm. main_fields. cbn [ready set_ready].
  unfold coarse_tune_min, vctcxo_trim_dac_write, vctcxo_tamer_init.
  main_fields. tune_mode_steps.
  set (c := vctcxo_tamer_ctrl_reg (drv s1)).
  (split; [by_bit c |]); (split; [by_bit c |]); (split; [by_bit c |]); by_bit c.
Qed.

End EnableEdge.

(** *** The further properties at concrete inputs *)

Lemma read_count_round_trip_witness :
  is_int32 (-50) /\ vctcxo_tamer_read_count minus_fifty_bank 4 = -50.
Proof.
  assert (Hv : is_int32 (-50)) by (unfold is_int32; lia).
  split; [exact Hv |].
  apply (read_count_round_trip minus_fifty_bank 4 (-50) Hv).
  intros k Hk.
  assert (E : k = 0 \/ k = 1 \/ k = 2 \/ k = 3) by lia.
  destruct E as [-> | [-> | [-> | ->]]]; reflexivity.
Defined.

Lemma set_tune_mode_final_state_witness :
  Z.testbit (vctcxo_tamer_ctrl_reg
               (vctcxo_tamer_set_tune_mode sample_platform VCTCXO_TAMER_10_MHZ
                  (Driver 0x43 0 []))) 7 = true.
Proof.
  destruct (set_tune_mode_final_state sample_platform VCTCXO_TAMER_10_MHZ
              (Driver 0x43 0 []) (or_intror (or_intror eq_refl)))
    as (_ & _ & _ & H7 & _).
  exact H7.
Defined.

Lemma fsm_rearms_witness :
  ready (vctcxo_tamer_pkt fine_state_medium) = true /\
  Z.testbit (vctcxo_tamer_ctrl_reg
               (drv (calibration_fsm sample_platform fine_state_medium))) 1 = true.
Proof.
  split; [reflexivity |].
  destruct (fsm_rearms sample_platform fine_state_medium eq_refl) as (_ & H1 & _).
  exact H1.
Defined.

Lemma idle_iteration_witness :
  main_loop_body sample_platform (LoopInput 1 idle_bank idle_bank) enabled_fine_state
  = enabled_fine_state.
Proof.
  exact (idle_iteration sample_platform (LoopInput 1 idle_bank idle_bank)
           enabled_fine_state eq_refl eq_refl eq_refl).
Defined.

Lemma disable_edge_iteration_witness :
  tune_state (main_loop_body sample_platform
                (LoopInput 0 (bank_short_error 5) (bank_short_error 5))
                enabled_fine_state) = COARSE_TUNE_MIN /\
  ready (vctcxo_tamer_pkt
           (main_loop_body sample_platform
              (LoopInput 0 (bank_short_error 5) (bank_short_error 5))
              enabled_fine_state)) = false.
Proof.
  destruct (disable_edge_iteration sample_platform
              (LoopInput 0 (bank_short_error 5) (bank_short_error 5))
              enabled_fine_state ltac:(discriminate) ltac:(discriminate))
    as (Ht & Hr & _).
  split; [exact Ht | exact Hr].
Defined.

Lemma enable_edge_iteration_witness :
  tune_state (main_loop_body sample_platform (LoopInput 1 idle_bank idle_bank)
                (main_init sample_platform)) = COARSE_TUNE_MAX.
Proof.
  destruct (enable_edge_iteration sample_platform (LoopInput 1 idle_bank idle_bank)
              (main_init sample_platform) ltac:(discriminate) eq_refl)
    as (Ht & _).
  exact Ht.
Defined.

Lemma coarse_calibration_run_witness :
  tune_state (main_loop sample_platform same_sign_run (main_init sample_platform))
    = FINE_TUNE.
Proof.
  destruct (coarse_calibration_run sample_platform
              (LoopInput 1 idle_bank idle_bank)
              (LoopInput 1 (bank_short_error 100) (bank_short_error 100))
              (LoopInput 1 (bank_short_error 60) (bank_short_error 60))
              (main_init sample_platform)
              ltac:(discriminate) eq_refl eq_refl eq_refl
              ltac:(discriminate) ltac:(discriminate))
    as (_ & _ & (Ht & _)).
  exact Ht.
Defined.

Lemma sample_platform_distinct : distinct_registers sample_platform.
Proof. unfold distinct_registers. cbn. repeat split; discriminate. Defined.

Lemma caches_shadow_registers_witness :
  distinct_registers sample_platform /\
  dac_shadowed sample_platform
    (drv (main_loop sample_platform same_sign_run (main_init sample_platform))).
Proof.
  split; [exact sample_platform_distinct |].
  exact (proj1 (caches_shadow_registers sample_platform sample_platform_distinct
                  same_sign_run)).
Defined.

Lemma state_register_tracks_fine_witness :
  distinct_registers sample_platform /\
  state_reg sample_platform
    (drv (main_loop sample_platform same_sign_run (main_init sample_platform)))
  = Some 1.
Proof.
  split; [exact sample_platform_distinct |].
  apply (state_register_tracks_fine sample_platform sample_platform_distinct
           same_sign_run).
  vm_compute. reflexivity.
Defined.

Lemma adjust_dead_band_witness :
  vctcxo_trim_dac_value
    (adjust_trim_dac sample_platform 3 (F32.of_int 3) 10 (Driver 0 43690 []))
  = 43690.
Proof.
  apply (adjust_dead_band sample_platform 3 (F32.of_int 3) 10 (Driver 0 43690 []) 9).
  - cbn. lia.
  - cbn. lia.
  - right. left. reflexivity.
  - vm_compute. reflexivity.
  - cbn. lia.
Defined.

Lemma adjust_trim_dac_monotone_witness :
  vctcxo_trim_dac_value
    (adjust_trim_dac sample_platform 20 (F32.of_int 3) 1 (Driver 0 43690 []))
  <= vctcxo_trim_dac_value
    (adjust_trim_dac sample_platform 10 (F32.of_int 3) 1 (Driver 0 43690 [])).
Proof.
  apply (adjust_trim_dac_monotone sample_platform 10 20 (F32.of_int 3) (F32.of_int 3)
           1 (Driver 0 43690 []) 30 60).
  - cbn. lia.
  - left. reflexivity.
  - cbn. unfold is_uint16. lia.
  - vm_compute. reflexivity.
  - vm_compute. reflexivity.
  - cbn. lia.
  - cbn. lia.
  - lia.
Defined.
